(** * Personal Analytics & Habit Tracker: the state logic of [src/app/page.tsx]

    The page component keeps six React state cells ([streak], [lastCheckin],
    [todayComplete], [notification], [reminders], [habits]), three event
    handlers ([handleHabitChange], [updateHabitGoal], [handleCheckIn]) and
    two timer callbacks ([checkNewDay], [checkMissedHabits]).  This file
    embeds them as programs of a small state/log/error monad and proves the
    properties the specification states about them.

    Modelling conventions.
    - A JavaScript [number] holding a habit value or a goal is a rational
      ([Q]): the values come from a range input and from
      [parseFloat(..) || 0], so they are finite, and the state logic only
      compares them.  [streak] is an integer ([Z]).
    - Where the page computes with numbers and the rounding of the double
      arithmetic shows in the result (the overall percentage, the weekly
      total and average), every operation rounds to the nearest number of
      53 significant bits, a tie going to the even one ([Double]).  The
      exponent range is not modelled: the numbers of the page are far from
      overflow and from the subnormal range.  The quotients of the bars and
      of the progress text are kept exact; what is stated about them are
      ranges, signs and the two ends, with a margin where a rounded result
      could fall on the other side.
    - A [Date] is the record of the local calendar fields the code reads.
    - A handler reads the values captured by its closure from the state it
      is started in: every handler is re-created when the cells it reads
      change ([useCallback]/[useEffect] dependency lists).
    - An uncaught [TypeError] is the result [None].
    - The display components ([StreakTracker], [HabitSlider], [HabitPanel],
      [GoalCard], [WeeklyActivity]) are embedded as the pure functions of
      the state they compute; their quotients, which can be infinite or
      [NaN], are numbers of [Num.t]. *)

From Stdlib Require Import ZArith QArith Qround Qpower Qabs Lqa List String
  Ascii Bool Lia.
Import ListNotations.

Local Open Scope string_scope.
Local Open Scope list_scope.
Local Open Scope Z_scope.

(** ** JavaScript primitives used by the page *)

Module JS.

(** Comparison operators on finite numbers. *)
Definition le (x y : Q) : bool := Qle_bool x y.
Definition ge (x y : Q) : bool := Qle_bool y x.
Definition lt (x y : Q) : bool :=
  match (x ?= y)%Q with Lt => true | _ => false end.
Definition gt (x y : Q) : bool :=
  match (x ?= y)%Q with Gt => true | _ => false end.

(** [x / y]; [None] stands for a result that is not a finite number
    ([NaN] for [0 / 0], an infinity for the other divisions by zero). *)
Definition div (x y : Q) : option Q :=
  if Qeq_bool y 0 then None else Some (x / y)%Q.

(** [Math.round]: the nearest integer, a tie going up. *)
Definition Math_round (x : Q) : Z := Qfloor (x + (1 # 2))%Q.

(** [arr[i]]: [undefined] ([None]) outside the array. *)
Definition get {A : Type} (arr : list A) (i : Z) : option A :=
  if i <? 0 then None else nth_error arr (Z.to_nat i).

(** [arr.length]. *)
Definition length {A : Type} (arr : list A) : Z :=
  Z.of_nat (List.length arr).

(** [arr.slice(0, e)]: a negative [e] counts from the end. *)
Definition slice0 {A : Type} (arr : list A) (e : Z) : list A :=
  let k := if e <? 0 then Z.max (length arr + e) 0
           else Z.min e (length arr) in
  firstn (Z.to_nat k) arr.

(** [arr.find(p)]. *)
Definition find {A : Type} (p : A -> bool) (arr : list A) : option A :=
  List.find p arr.

(** [s.toLowerCase()] on the ASCII letters; the habit names are ASCII. *)
Definition lower_ascii (c : ascii) : ascii :=
  let n := nat_of_ascii c in
  if (Nat.leb 65 n && Nat.leb n 90)%bool then ascii_of_nat (n + 32) else c.

Fixpoint toLowerCase (s : string) : string :=
  match s with
  | EmptyString => EmptyString
  | String c r => String (lower_ascii c) (toLowerCase r)
  end.

(** [arr.map(f)] for an [f] that can throw: the first exception aborts. *)
Fixpoint mapThrow {A B : Type} (f : A -> option B) (arr : list A)
  : option (list B) :=
  match arr with
  | [] => Some []
  | a :: r =>
      match f a with
      | None => None
      | Some b =>
          match mapThrow f r with
          | None => None
          | Some bs => Some (b :: bs)
          end
      end
  end.

End JS.

(** ** Double arithmetic

    A finite double is the rational it denotes.  [round] maps a rational
    to the nearest one with 53 significant bits, a tie going to the even
    significand (the default rounding of IEEE 754, which [+], [*] and [/]
    of JavaScript apply to the exact result). *)

Module Double.

(** The nearest integer, a tie going to the even one. *)
Definition rne (x : Q) : Z :=
  let f := Qfloor x in
  match (x - inject_Z f ?= 1 # 2)%Q with
  | Lt => f
  | Gt => f + 1
  | Eq => if Z.even f then f else f + 1
  end.

(** The binary exponent of a positive rational [x]: the [e] with
    [2 ^ e <= x < 2 ^ (e + 1)]. *)
Definition exponent (x : Q) : Z :=
  let e0 := Z.log2 (Qnum x) - Z.log2 (Z.pos (Qden x)) in
  if Qle_bool (2 ^ e0) x then e0 else e0 - 1.

Definition round (x : Q) : Q :=
  if Qeq_bool x 0 then 0%Q
  else
    let e := exponent (Qabs x) - 52 in
    (inject_Z (rne (x / 2 ^ e)) * 2 ^ e)%Q.

(** [x + y], [x * y] and [x / y] (with [y] other than 0) of two doubles. *)
Definition add (x y : Q) : Q := round (x + y).
Definition mul (x y : Q) : Q := round (x * y).
Definition div (x y : Q) : Q := round (x / y).

End Double.

(** ** Types and interfaces *)

(** [interface DataPoint]. *)
Record DataPoint : Type := mkDataPoint {
  day : string;
  value : Q
}.

(** [interface HabitData].  The fields [id] and [unit] are named
    [habit_id] and [habit_unit]; [icon] is the name of the icon component. *)
Record HabitData : Type := mkHabit {
  habit_id : string;
  name : string;
  icon : string;
  habit_unit : string;
  color : string;
  goal : Q;
  current : Q;
  data : list DataPoint
}.

(** The fields of a [Date] read by the page: [getFullYear()], [getMonth()]
    (0 to 11), [getDate()] (day of the month) and [getDay()] (0 is Sunday),
    all in local time. *)
Record Date : Type := mkDate {
  getFullYear : Z;
  getMonth : Z;
  getDate : Z;
  getDay : Z
}.

(** The state cells of [Page]. *)
Record AppState : Type := mkState {
  streak : Z;
  lastCheckin : option Date;
  todayComplete : bool;
  notification : option string;
  reminders : list string;
  habits : list HabitData
}.

(** What a handler does besides writing state cells: it shows a
    notification ([setNotification(msg)]) and it arms the timer that clears
    the notification slot ([setTimeout(() => setNotification(null), ms)]). *)
Inductive Effect : Type :=
| Notify (msg : string)
| ClearNotificationAfter (ms : Z).

(** ** The handler monad: state, effect log, uncaught exception *)

Definition M (A : Type) : Type := AppState -> option (A * AppState * list Effect).

Definition ret {A : Type} (a : A) : M A := fun s => Some (a, s, []).

Definition bind {A B : Type} (m : M A) (k : A -> M B) : M B :=
  fun s =>
    match m s with
    | None => None
    | Some (a, s1, l1) =>
        match k a s1 with
        | None => None
        | Some (b, s2, l2) => Some (b, s2, l1 ++ l2)
        end
    end.

Declare Scope page_scope.
Delimit Scope page_scope with page.
Notation "x <- m ;; k" := (bind m (fun x => k))
  (at level 61, m at next level, right associativity) : page_scope.
Notation "m ;; k" := (bind m (fun _ => k))
  (at level 61, right associativity) : page_scope.
Local Open Scope page_scope.

Definition getState : M AppState := fun s => Some (s, s, []).

Definition setStreak (f : Z -> Z) : M unit := fun s =>
  Some (tt, mkState (f (streak s)) (lastCheckin s) (todayComplete s)
              (notification s) (reminders s) (habits s), []).

Definition setLastCheckin (d : option Date) : M unit := fun s =>
  Some (tt, mkState (streak s) d (todayComplete s)
              (notification s) (reminders s) (habits s), []).

Definition setTodayComplete (b : bool) : M unit := fun s =>
  Some (tt, mkState (streak s) (lastCheckin s) b
              (notification s) (reminders s) (habits s), []).

Definition setNotification (msg : string) : M unit := fun s =>
  Some (tt, mkState (streak s) (lastCheckin s) (todayComplete s)
              (Some msg) (reminders s) (habits s), [Notify msg]).

Definition clearNotification : M unit := fun s =>
  Some (tt, mkState (streak s) (lastCheckin s) (todayComplete s)
              None (reminders s) (habits s), []).

Definition setTimeout_clearNotification (ms : Z) : M unit := fun s =>
  Some (tt, s, [ClearNotificationAfter ms]).

Definition setReminders (r : list string) : M unit := fun s =>
  Some (tt, mkState (streak s) (lastCheckin s) (todayComplete s)
              (notification s) r (habits s), []).

(** [setHabits(prevHabits => ..)]: an updater that throws takes the whole
    component down. *)
Definition setHabits (f : list HabitData -> option (list HabitData)) : M unit :=
  fun s =>
    match f (habits s) with
    | None => None
    | Some hs => Some (tt, mkState (streak s) (lastCheckin s) (todayComplete s)
                             (notification s) (reminders s) hs, [])
    end.

(** ** Goal achievement, as each place of the page computes it *)

(** [goalMet] of the "Today's Summary" panel. *)
Definition summary_goalMet (habit : HabitData) : bool :=
  if (habit_id habit =? "screen")%string
  then JS.le (current habit) (goal habit)
  else JS.ge (current habit) (goal habit).

(** The filter of [OverallProgress] and of the overall progress bar. *)
Definition completed (h : HabitData) : bool :=
  if (habit_id h =? "screen")%string
  then JS.le (current h) (goal h)
  else JS.ge (current h) (goal h).

(** [isOnTarget] of [HabitSlider]. *)
Definition isOnTarget (habit : HabitData) : bool :=
  let isReversed := (habit_id habit =? "screen")%string in
  if isReversed
  then JS.le (current habit) (goal habit)
  else JS.ge (current habit) (goal habit).

(** The filter of [checkMissedHabits]. *)
Definition missed (habit : HabitData) : bool :=
  if (habit_id habit =? "screen")%string
  then JS.gt (current habit) (goal habit)
  else JS.lt (current habit) (goal habit).

(** ** Messages *)

(** The bytes in front of " Goal achieved for" in the template string. *)
Definition celebration : string :=
  string_of_list_ascii
    (List.map ascii_of_nat [239; 163; 191; 195; 188; 195; 169; 195; 162]%nat).

Definition goalAchievedMessage (habitName : string) : string :=
  (celebration ++ " Goal achieved for " ++ habitName ++ "!")%string.

(** [`Goal updated for ${habitName}`]; an [undefined] name prints as
    "undefined". *)
Definition goalUpdatedMessage (habitName : option string) : string :=
  ("Goal updated for " ++
   match habitName with Some n => n | None => "undefined" end)%string.

Definition checkInMessage : string :=
  "Daily check-in complete! Streak increased.".

Definition streakResetMessage : string :=
  "You missed a day! Streak reset.".

Definition reminderMessage (habit : HabitData) : string :=
  ("Don't forget to " ++
   (if habit_id habit =? "screen" then "limit" else "complete") ++
   " your " ++ JS.toLowerCase (name habit) ++ " goal!")%string.

(** ** Event handlers *)

(** The object built for the habit whose [id] matches in
    [handleHabitChange]:
    [{...habit, current: value,
      data: [...habit.data.slice(0, -1),
             {day: habit.data[habit.data.length - 1].day, value}]}].
    Reading [.day] of [undefined] (an empty [data]) throws. *)
Definition withValue (value : Q) (habit : HabitData) : option HabitData :=
  match JS.get (data habit) (JS.length (data habit) - 1) with
  | None => None
  | Some today =>
      Some (mkHabit (habit_id habit) (name habit) (icon habit)
              (habit_unit habit) (color habit) (goal habit) value
              (JS.slice0 (data habit) (-1) ++ [mkDataPoint (day today) value]))
  end.

(** [handleHabitChange(id, value)]. *)
Definition handleHabitChange (id : string) (value : Q) : M unit :=
  s <- getState ;;
  let habitBeingModified :=
    JS.find (fun h => (habit_id h =? id)%string) (habits s) in
  match habitBeingModified with
  | Some habitBeingModified =>
      let goalMet :=
        if (habit_id habitBeingModified =? "screen")%string
        then JS.le value (goal habitBeingModified)
        else JS.ge value (goal habitBeingModified) in
      let wasAlreadyAchieved :=
        if (habit_id habitBeingModified =? "screen")%string
        then JS.le (current habitBeingModified) (goal habitBeingModified)
        else JS.ge (current habitBeingModified) (goal habitBeingModified) in
      if goalMet && negb wasAlreadyAchieved
      then setNotification (goalAchievedMessage (name habitBeingModified)) ;;
           setTimeout_clearNotification 3000
      else ret tt
  | None => ret tt
  end ;;
  setHabits (fun prevHabits =>
    JS.mapThrow (fun habit =>
      if (habit_id habit =? id)%string
      then withValue value habit
      else Some habit) prevHabits).

(** [{...habit, goal}]. *)
Definition withGoal (goal' : Q) (habit : HabitData) : HabitData :=
  mkHabit (habit_id habit) (name habit) (icon habit) (habit_unit habit)
    (color habit) goal' (current habit) (data habit).

(** [updateHabitGoal(id, goal)]. *)
Definition updateHabitGoal (id : string) (goal' : Q) : M unit :=
  s <- getState ;;
  setHabits (fun prevHabits =>
    Some (List.map (fun habit =>
      if (habit_id habit =? id)%string then withGoal goal' habit else habit)
      prevHabits)) ;;
  let habitName :=
    option_map name (JS.find (fun h => (habit_id h =? id)%string) (habits s)) in
  setNotification (goalUpdatedMessage habitName) ;;
  setTimeout_clearNotification 3000.

(** [handleCheckIn()], run at the time [now]. *)
Definition handleCheckIn (now : Date) : M unit :=
  s <- getState ;;
  if negb (todayComplete s)
  then setLastCheckin (Some now) ;;
       setTodayComplete true ;;
       setStreak (fun prev => prev + 1) ;;
       setNotification checkInMessage ;;
       setTimeout_clearNotification 3000
  else ret tt.

(** ** Timer callbacks *)

(** The local constants [isNewDay] and [missedDay] of [checkNewDay]. *)
Definition isNewDay (now lastCheckedDate : Date) : bool :=
  negb (getDate now =? getDate lastCheckedDate)
  || negb (getMonth now =? getMonth lastCheckedDate)
  || negb (getFullYear now =? getFullYear lastCheckedDate).

Definition missedDay (now lastCheckedDate : Date) : bool :=
  let dayDifference := getDate now - getDate lastCheckedDate in
  let isMonthChange := negb (getMonth now =? getMonth lastCheckedDate) in
  let isYearChange := negb (getFullYear now =? getFullYear lastCheckedDate) in
  (1 <? dayDifference) || isMonthChange || isYearChange.

(** [checkNewDay()], run at the time [now]. *)
Definition checkNewDay (now : Date) : M unit :=
  s <- getState ;;
  match lastCheckin s with
  | Some lastCheckedDate =>
      if isNewDay now lastCheckedDate
      then
        setTodayComplete false ;;
        if missedDay now lastCheckedDate
        then setStreak (fun _ => 0) ;;
             setNotification streakResetMessage ;;
             setTimeout_clearNotification 3000
        else ret tt
      else ret tt
  | None => ret tt
  end.

(** [checkMissedHabits()]. *)
Definition checkMissedHabits : M unit :=
  s <- getState ;;
  let missedHabits := List.filter missed (habits s) in
  if 0 <? JS.length missedHabits
  then setReminders (List.map reminderMessage missedHabits)
  else setReminders [].

(** ** Derived values *)

(** [completedHabits] and [percentage] of [OverallProgress]:
    [Math.round((completedHabits / habits.length) * 100)].  With no habit
    the quotient is [NaN] and so is the percentage ([None]).  The quotient
    and the product are rounded to doubles; [Math.round] is exact. *)
Definition completedHabits (hs : list HabitData) : Z :=
  JS.length (List.filter completed hs).

Definition percentage (hs : list HabitData) : option Z :=
  match JS.div (inject_Z (completedHabits hs)) (inject_Z (JS.length hs)) with
  | None => None
  | Some q => Some (JS.Math_round (Double.mul (Double.round q) 100))
  end.

(** ** The page as a transition system *)

Inductive Event : Type :=
| HabitChange (id : string) (value : Q)
| GoalUpdate (id : string) (goal' : Q)
| CheckIn (now : Date)
| NewDayTimer (now : Date)
| MissedHabitsTimer
| NotificationTimeout.

Definition handle (e : Event) : M unit :=
  match e with
  | HabitChange id v => handleHabitChange id v
  | GoalUpdate id g => updateHabitGoal id g
  | CheckIn now => handleCheckIn now
  | NewDayTimer now => checkNewDay now
  | MissedHabitsTimer => checkMissedHabits
  | NotificationTimeout => clearNotification
  end.

(** [step s e s' log]: the event [e] takes [s] to [s'] with the effects
    [log]. *)
Definition step (s : AppState) (e : Event) (s' : AppState) (log : list Effect)
  : Prop :=
  handle e s = Some (tt, s', log).

(** The notifications shown by a run. *)
Fixpoint notifications (log : list Effect) : list string :=
  match log with
  | [] => []
  | Notify msg :: r => msg :: notifications r
  | ClearNotificationAfter _ :: r => notifications r
  end.

(** *** Initial state *)

(** [toLocaleDateString('en-US', { weekday: 'short' })]. *)
Definition weekdayShort (d : Z) : string :=
  match d mod 7 with
  | 0 => "Sun" | 1 => "Mon" | 2 => "Tue" | 3 => "Wed"
  | 4 => "Thu" | 5 => "Fri" | _ => "Sat"
  end.

(** [getDates()]: the weekday names of the last seven days, today last. *)
Definition getDates (today : Date) : list string :=
  List.map (fun i => weekdayShort (getDay today - i)) [6; 5; 4; 3; 2; 1; 0].

(** [pastWeekDays.map((day, index) => ({ day, value: values[index] }))],
    for the seven names of [getDates] and a literal of seven values. *)
Definition weekData (pastWeekDays : list string) (values : list Q)
  : list DataPoint :=
  List.map (fun dv => mkDataPoint (fst dv) (snd dv)) (combine pastWeekDays values).

Definition initialHabits (pastWeekDays : list string) : list HabitData :=
  [ mkHabit "sleep" "Sleep" "Moon" "hours" "#4f46e5" 8 7
      (weekData pastWeekDays [7.5; 6.5; 8; 7; 6; 8.5; 7.5]%Q);
    mkHabit "water" "Water" "Droplets" "liters" "#0ea5e9" 3 2.5
      (weekData pastWeekDays [1.8; 2.5; 3.2; 2.7; 1.5; 2.2; 2.8]%Q);
    mkHabit "screen" "Screen Time" "Monitor" "hours" "#ef4444" 4 4.5
      (weekData pastWeekDays [5.5; 4.2; 6.1; 3.5; 7.2; 4.8; 3.9]%Q);
    mkHabit "exercise" "Exercise" "Activity" "minutes" "#10b981" 30 25
      (weekData pastWeekDays [45; 0; 30; 60; 20; 0; 25]%Q);
    mkHabit "meditation" "Meditation" "Zap" "minutes" "#8b5cf6" 15 10
      (weekData pastWeekDays [10; 15; 5; 20; 10; 15; 10]%Q);
    mkHabit "coffee" "Coffee" "Coffee" "cups" "#d97706" 2 3
      (weekData pastWeekDays [2; 3; 2; 4; 1; 3; 3]%Q) ].

(** The state after the [useState] initialisers, the page mounted at
    [today]. *)
Definition initialState (today : Date) : AppState :=
  mkState 3 (Some today) false None [] (initialHabits (getDates today)).

Inductive reachable : AppState -> Prop :=
| reachable_init (today : Date) : reachable (initialState today)
| reachable_step s e s' log :
    reachable s -> step s e s' log -> reachable s'.

(** The test [id === 'screen' ? x <= goal : x >= goal] that each of these
    places spells out, at a value [x]. *)
Definition goalMetAt (h : HabitData) (x : Q) : bool :=
  if (habit_id h =? "screen")%string then JS.le x (goal h) else JS.ge x (goal h).

(** The missed-day branch of [checkNewDay] is taken from [s] at [now]. *)
Definition missedDayBranch (s : AppState) (now : Date) : Prop :=
  exists last,
    lastCheckin s = Some last /\
    isNewDay now last = true /\ missedDay now last = true.

(** The ids of the six habits, in the order of the page. *)
Definition habitIds : list string :=
  ["sleep"; "water"; "screen"; "exercise"; "meditation"; "coffee"].

(** ** The specification's vocabulary *)

Module Spec.

(** Direction semantics: for [id == "screen"] achievement means the value
    is at most the goal, for every other id it means the value is at least
    the goal. *)
Definition achievedAt (h : HabitData) (x : Q) : Prop :=
  (habit_id h = "screen" /\ (x <= goal h)%Q) \/
  (habit_id h <> "screen" /\ (goal h <= x)%Q).

Definition achieved (h : HabitData) : Prop := achievedAt h (current h).

(** A habit is missed when [current > goal] for screen and
    [current < goal] otherwise. *)
Definition missed (h : HabitData) : Prop :=
  (habit_id h = "screen" /\ (goal h < current h)%Q) \/
  (habit_id h <> "screen" /\ (current h < goal h)%Q).

(** Days from the start of year 0 to the start of the year [y] and from
    the start of the year to the start of its month [m] (0 is January),
    in the Gregorian calendar. *)
Definition isLeapYear (y : Z) : bool :=
  (y mod 4 =? 0) && (negb (y mod 100 =? 0) || (y mod 400 =? 0)).

Definition daysBeforeYear (y : Z) : Z :=
  365 * y + (y + 3) / 4 - (y + 99) / 100 + (y + 399) / 400.

Definition daysBeforeMonth (y m : Z) : Z :=
  nth (Z.to_nat m) [0; 31; 59; 90; 120; 151; 181; 212; 243; 273; 304; 334] 0
  + (if isLeapYear y && (2 <=? m) then 1 else 0).

Definition dayNumber (d : Date) : Z :=
  daysBeforeYear (getFullYear d)
  + daysBeforeMonth (getFullYear d) (getMonth d)
  + getDate d.

(** The gap in calendar days from [last] to [now]. *)
Definition calendarGap (last now : Date) : Z := dayNumber now - dayNumber last.

(** The calendar dates (year, month, day of the month) differ. *)
Definition dateDiffers (last now : Date) : Prop :=
  getFullYear now <> getFullYear last \/
  getMonth now <> getMonth last \/
  getDate now <> getDate last.

End Spec.

(** What holds in every state the page can reach: the streak is not
    negative, the habits are the six of the page, and each has seven data
    points. *)
Definition invariant (s : AppState) : Prop :=
  0 <= streak s /\
  List.map habit_id (habits s) = habitIds /\
  List.map (fun h => List.length (data h)) (habits s)
    = [7; 7; 7; 7; 7; 7]%nat.

(** *** Sample states and dates *)

(** The page mounted on Monday 2 November 2026 ([getMonth] counts from 0),
    and the Wednesday after. *)
Definition monday : Date := mkDate 2026 10 2 1.
Definition wednesday : Date := mkDate 2026 10 4 3.

Definition mounted : AppState := initialState monday.

Definition sleepHabit : HabitData :=
  mkHabit "sleep" "Sleep" "Moon" "hours" "#4f46e5" 8 7
    (weekData (getDates monday) [7.5; 6.5; 8; 7; 6; 8.5; 7.5]%Q).

Definition screenHabit : HabitData :=
  mkHabit "screen" "Screen Time" "Monitor" "hours" "#ef4444" 4 4.5
    (weekData (getDates monday) [5.5; 4.2; 6.1; 3.5; 7.2; 4.8; 3.9]%Q).

(** Forty habits of which 23 meet their goal. *)
Definition fortyHabits : list HabitData :=
  repeat (withGoal 6 sleepHabit) 23 ++ repeat sleepHabit 17.

(** The mounted page after the sleep slider is moved to 8.5. *)
Definition afterSleep : AppState :=
  Eval vm_compute in
    match handleHabitChange "sleep" 8.5 mounted with
    | Some (_, s', _) => s'
    | None => mounted
    end.

(** The state and the effects of the Wednesday check on the mounted
    page. *)
Definition afterMissedDay : AppState :=
  mkState 0 (Some monday) false (Some streakResetMessage) []
    (habits mounted).

(** ** Numbers that need not be finite *)

(** The quotients of the display components can be infinite or [NaN].
    [Fin q] is a finite number; the operations of this module are exact and
    [rounded] gives the nearest double; a zero is [+0] (the goals
    come from literals and from [parseFloat(..) || 0], the other divisors
    are array lengths and slider ranges). *)
Module Num.

Inductive t : Type :=
| Fin (q : Q)
| PInf
| NInf
| NaN.

(** The infinity whose sign is that of a number compared with 0; [NaN] for
    a zero. *)
Definition inf (c : comparison) : t :=
  match c with Gt => PInf | Lt => NInf | Eq => NaN end.

Definition sign (q : Q) : comparison := (q ?= 0)%Q.

Definition neg (x : t) : t :=
  match x with
  | Fin q => Fin (- q)
  | PInf => NInf
  | NInf => PInf
  | NaN => NaN
  end.

(** [x + y]. *)
Definition add (x y : t) : t :=
  match x, y with
  | NaN, _ | _, NaN => NaN
  | Fin a, Fin b => Fin (a + b)
  | PInf, NInf | NInf, PInf => NaN
  | PInf, _ | _, PInf => PInf
  | NInf, _ | _, NInf => NInf
  end.

(** [x - y]. *)
Definition sub (x y : t) : t := add x (neg y).

(** [x * y]. *)
Definition mul (x y : t) : t :=
  match x, y with
  | NaN, _ | _, NaN => NaN
  | Fin a, Fin b => Fin (a * b)
  | Fin a, PInf | PInf, Fin a => inf (sign a)
  | Fin a, NInf | NInf, Fin a => inf (CompOpp (sign a))
  | PInf, PInf | NInf, NInf => PInf
  | PInf, NInf | NInf, PInf => NInf
  end.

(** [x / y]. *)
Definition div (x y : t) : t :=
  match x, y with
  | NaN, _ | _, NaN => NaN
  | Fin a, Fin b => if Qeq_bool b 0 then inf (sign a) else Fin (a / b)
  | Fin _, PInf | Fin _, NInf => Fin 0
  | PInf, Fin b => match sign b with Lt => NInf | _ => PInf end
  | NInf, Fin b => match sign b with Lt => PInf | _ => NInf end
  | _, _ => NaN
  end.

(** [x <= y] and [x >= y]: false when an operand is [NaN]. *)
Definition le (x y : t) : bool :=
  match x, y with
  | NaN, _ | _, NaN => false
  | NInf, _ | _, PInf => true
  | Fin a, Fin b => Qle_bool a b
  | _, _ => false
  end.

Definition ge (x y : t) : bool := le y x.

(** The double nearest to a number. *)
Definition rounded (x : t) : t :=
  match x with
  | Fin q => Fin (Double.round q)
  | _ => x
  end.

(** [Math.min(x, y)] and [Math.max(x, y)]: [NaN] when an operand is. *)
Definition min (x y : t) : t :=
  match x, y with
  | NaN, _ | _, NaN => NaN
  | _, _ => if le x y then x else y
  end.

Definition max (x y : t) : t :=
  match x, y with
  | NaN, _ | _, NaN => NaN
  | _, _ => if le x y then y else x
  end.

(** [Math.round(x)]. *)
Definition round (x : t) : t :=
  match x with
  | Fin q => Fin (inject_Z (JS.Math_round q))
  | _ => x
  end.

(** [Math.max(...xs)] and [Math.min(...xs)]: the infinities for no
    argument. *)
Definition maxOf (xs : list Q) : t :=
  fold_left (fun m x => max m (Fin x)) xs NInf.

Definition minOf (xs : list Q) : t :=
  fold_left (fun m x => min m (Fin x)) xs PInf.

End Num.

(** ** [StreakTracker] *)

(** The width of the milestone bar:
    [Math.min(100, (streak % 5) * 20)]; the remainder of [%] has the sign
    of the dividend. *)
Definition milestoneProgress (streak : Z) : Z :=
  Z.min 100 (Z.rem streak 5 * 20).

(** "Next": [Math.ceil(streak / 5) * 5]. *)
Definition nextMilestone (streak : Z) : Z :=
  Qceiling (inject_Z streak / 5) * 5.

(** ** [HabitSlider] *)



(** ** [HabitPanel] *)

Inductive ViewMode : Type := daily | weekly.

(** [points.reduce((sum, point) => sum + point.value, 0)]: every addition
    rounds to a double, and a value is the double nearest to the rational
    that stands for it (0.1 is not a double). *)
Definition sumValues (points : list DataPoint) : Q :=
  fold_left (fun sum point => Double.add sum (Double.round (value point)))
    points 0%Q.

(** [habit.data.reduce((sum, point) => sum + point.value, 0)]. *)
Definition weeklyTotal (habit : HabitData) : Q := sumValues (data habit).

(** [weeklyTotal / habit.data.length], rounded to a double. *)
Definition weeklyAvg (habit : HabitData) : Num.t :=
  Num.rounded
    (Num.div (Num.Fin (weeklyTotal habit))
       (Num.Fin (inject_Z (JS.length (data habit))))).

Definition weeklyHigh (habit : HabitData) : Num.t :=
  Num.maxOf (List.map value (data habit)).

Definition weeklyLow (habit : HabitData) : Num.t :=
  Num.minOf (List.map value (data habit)).

Definition dailyGoalPercentage (habit : HabitData) : Num.t :=
  Num.mul (Num.div (Num.Fin (current habit)) (Num.Fin (goal habit)))
    (Num.Fin 100).

Definition weeklyGoalPercentage (habit : HabitData) : Num.t :=
  Num.mul (Num.div (weeklyAvg habit) (Num.Fin (goal habit))) (Num.Fin 100).

(** [100 - ((x - habit.goal) / habit.goal * 100)]. *)
Definition overGoal (habit : HabitData) (x : Num.t) : Num.t :=
  Num.sub (Num.Fin 100)
    (Num.mul (Num.div (Num.sub x (Num.Fin (goal habit)))
                (Num.Fin (goal habit)))
       (Num.Fin 100)).

(** [getProgressPercentage()]: the width of the progress bar. *)
Definition getProgressPercentage (viewMode : ViewMode) (habit : HabitData)
  : Num.t :=
  let isReversed := (habit_id habit =? "screen")%string in
  match viewMode with
  | daily =>
      if isReversed
      then if JS.le (current habit) (goal habit)
           then Num.Fin 100
           else Num.max (Num.Fin 0)
                  (Num.min (Num.Fin 100)
                     (overGoal habit (Num.Fin (current habit))))
      else Num.min (Num.Fin 100) (dailyGoalPercentage habit)
  | weekly =>
      if isReversed
      then if Num.le (weeklyAvg habit) (Num.Fin (goal habit))
           then Num.Fin 100
           else Num.max (Num.Fin 0)
                  (Num.min (Num.Fin 100) (overGoal habit (weeklyAvg habit)))
      else Num.min (Num.Fin 100) (weeklyGoalPercentage habit)
  end.

(** [getProgressText()]: the number in front of the percent sign. *)
Definition getProgressText (viewMode : ViewMode) (habit : HabitData) : Num.t :=
  let isReversed := (habit_id habit =? "screen")%string in
  match viewMode with
  | daily =>
      if isReversed
      then if JS.le (current habit) (goal habit)
           then Num.Fin 100
           else Num.round (overGoal habit (Num.Fin (current habit)))
      else if JS.ge (current habit) (goal habit)
           then Num.Fin 100
           else Num.round (dailyGoalPercentage habit)
  | weekly =>
      if isReversed
      then if Num.le (weeklyAvg habit) (Num.Fin (goal habit))
           then Num.Fin 100
           else Num.round (overGoal habit (weeklyAvg habit))
      else if Num.ge (weeklyAvg habit) (Num.Fin (goal habit))
           then Num.Fin 100
           else Num.round (weeklyGoalPercentage habit)
  end.

(** "Yesterday": [habit.data[habit.data.length - 2]?.value || 0]. *)
Definition yesterday (habit : HabitData) : Q :=
  match JS.get (data habit) (JS.length (data habit) - 2) with
  | Some point => if Qeq_bool (value point) 0 then 0%Q else value point
  | None => 0%Q
  end.

(** ** [GoalCard] *)

(** The width of the bar of a goal card:
    [Math.min(100, (habit.current / habit.goal) * 100)], for every habit. *)
Definition goalCardProgress (habit : HabitData) : Num.t :=
  Num.min (Num.Fin 100)
    (Num.mul (Num.div (Num.Fin (current habit)) (Num.Fin (goal habit)))
       (Num.Fin 100)).

(** ** [WeeklyActivity] *)

(** A property value of a [CombinedDayData] object: the day label or the
    number of a habit. *)
Inductive Cell : Type :=
| Str (s : string)
| Numb (x : Q).

(** An object as its own properties, in the order they were first set. *)
Definition Obj : Type := list (string * Cell).

(** The own property [key] of [obj] is made or overwritten. *)
Fixpoint defineProp (obj : Obj) (key : string) (v : Cell) : Obj :=
  match obj with
  | [] => [(key, v)]
  | (k, c) :: r =>
      if (k =? key)%string then (key, v) :: r else (k, c) :: defineProp r key v
  end.

(** [obj[key] = v] for a string or a number [v].  The key ["__proto__"] is
    the accessor of [Object.prototype], whose setter ignores a value that
    is neither an object nor [null]: no property is made. *)
Definition setProp (obj : Obj) (key : string) (v : Cell) : Obj :=
  if (key =? "__proto__")%string then obj else defineProp obj key v.

(** [obj[key]] for an own property of [obj]. *)
Fixpoint getProp (obj : Obj) (key : string) : option Cell :=
  match obj with
  | [] => None
  | (k, c) :: r => if (k =? key)%string then Some c else getProp r key
  end.

(** [habits.forEach(habit => { dayData[habit.id] = habit.data[i].value; })]:
    reading [.value] of [undefined] throws. *)
Fixpoint fillDay (i : Z) (habits : list HabitData) (dayData : Obj)
  : option Obj :=
  match habits with
  | [] => Some dayData
  | habit :: r =>
      match JS.get (data habit) i with
      | None => None
      | Some point =>
          fillDay i r (setProp dayData (habit_id habit) (Numb (value point)))
      end
  end.

(** [days.map((day, i) => { const dayData = { day }; ..; return dayData; })],
    from the index [i] on. *)
Fixpoint combineFrom (i : Z) (days : list string) (habits : list HabitData)
  : option (list Obj) :=
  match days with
  | [] => Some []
  | day :: r =>
      match fillDay i habits [("day", Str day)] with
      | None => None
      | Some dayData =>
          match combineFrom (i + 1) r habits with
          | None => None
          | Some rows => Some (dayData :: rows)
          end
      end
  end.

(** [combinedData], with [days = habits[0]?.data.map(d => d.day) || []]. *)
Definition combinedData (habits : list HabitData) : option (list Obj) :=
  let days :=
    match JS.get habits 0 with
    | Some first => List.map day (data first)
    | None => []
    end in
  combineFrom 0 days habits.

(** ** Further vocabulary *)

(** The display fields of a habit, which no handler writes. *)
Definition metadata (h : HabitData)
  : string * string * string * string * string :=
  (habit_id h, name h, icon h, habit_unit h, color h).

(** The day after [monday]. *)
Definition tuesday : Date := mkDate 2026 10 3 2.

(** The effects of moving the sleep slider of the mounted page to 8.5. *)
Definition sleepAchieved : list Effect :=
  [Notify (goalAchievedMessage "Sleep"); ClearNotificationAfter 3000].

(** [afterSleep] after the sleep slider is moved on to 6. *)
Definition afterSleepTwice : AppState :=
  Eval vm_compute in
    match handleHabitChange "sleep" 6 afterSleep with
    | Some (_, s', _) => s'
    | None => afterSleep
    end.



(** The water habit of the mounted page, and a habit whose seven values
    are 0.1. *)
Definition waterHabit : HabitData :=
  mkHabit "water" "Water" "Droplets" "liters" "#0ea5e9" 3 2.5
    (weekData (getDates monday) [1.8; 2.5; 3.2; 2.7; 1.5; 2.2; 2.8]%Q).

Definition tenths : HabitData :=
  mkHabit "water" "Water" "Droplets" "liters" "#0ea5e9" 3 0.1
    (weekData (getDates monday) [0.1; 0.1; 0.1; 0.1; 0.1; 0.1; 0.1]%Q).

(** The sleep habit under the id "__proto__". *)
Definition protoHabit : HabitData :=
  mkHabit "__proto__" "Sleep" "Moon" "hours" "#4f46e5" 8 7 (data sleepHabit).

(** The rows of the weekly chart of the mounted page. *)
Definition mountedRows : list Obj :=
  Eval vm_compute in
    match combinedData (habits mounted) with
    | Some rows => rows
    | None => []
    end.

(** ** Comparisons *)

Lemma le_true_iff (x y : Q) : JS.le x y = true <-> (x <= y)%Q.
Proof. unfold JS.le. apply Qle_bool_iff. Qed.

Lemma ge_true_iff (x y : Q) : JS.ge x y = true <-> (y <= x)%Q.
Proof. unfold JS.ge. apply Qle_bool_iff. Qed.

Lemma gt_true_iff (x y : Q) : JS.gt x y = true <-> (y < x)%Q.
Proof.
  unfold JS.gt. rewrite Qgt_alt.
  destruct (x ?= y)%Q; split; intro H; congruence.
Qed.

Lemma lt_true_iff (x y : Q) : JS.lt x y = true <-> (x < y)%Q.
Proof.
  unfold JS.lt. rewrite Qlt_alt.
  destruct (x ?= y)%Q; split; intro H; congruence.
Qed.

Lemma gt_negb_le (x y : Q) : JS.gt x y = negb (JS.le x y).
Proof.
  destruct (JS.gt x y) eqn:G, (JS.le x y) eqn:L; try reflexivity.
  - apply gt_true_iff in G. apply le_true_iff in L.
    exfalso. exact (Qlt_not_le _ _ G L).
  - exfalso. assert (N : ~ (y < x)%Q).
    { intro C. apply gt_true_iff in C. congruence. }
    apply Qnot_lt_le in N. apply le_true_iff in N. congruence.
Qed.

Lemma lt_negb_ge (x y : Q) : JS.lt x y = negb (JS.ge x y).
Proof.
  destruct (JS.lt x y) eqn:G, (JS.ge x y) eqn:L; try reflexivity.
  - apply lt_true_iff in G. apply ge_true_iff in L.
    exfalso. exact (Qlt_not_le _ _ G L).
  - exfalso. assert (N : ~ (x < y)%Q).
    { intro C. apply lt_true_iff in C. congruence. }
    apply Qnot_lt_le in N. apply ge_true_iff in N. congruence.
Qed.

(** ** Goal achievement *)

Lemma goalMetAt_iff (h : HabitData) (x : Q) :
  goalMetAt h x = true <-> Spec.achievedAt h x.
Proof.
  unfold goalMetAt, Spec.achievedAt.
  destruct (String.eqb_spec (habit_id h) "screen") as [E | E].
  - rewrite le_true_iff. intuition congruence.
  - rewrite ge_true_iff. intuition congruence.
Qed.

Lemma completed_iff (h : HabitData) : completed h = true <-> Spec.achieved h.
Proof. apply (goalMetAt_iff h (current h)). Qed.

Lemma completed_false_iff (h : HabitData) :
  completed h = false <-> ~ Spec.achieved h.
Proof.
  rewrite <- completed_iff. destruct (completed h); intuition congruence.
Qed.

Lemma missed_negb_completed (h : HabitData) : missed h = negb (completed h).
Proof.
  unfold missed, completed.
  destruct (habit_id h =? "screen")%string.
  - apply gt_negb_le.
  - apply lt_negb_ge.
Qed.

Lemma missed_iff (h : HabitData) : missed h = true <-> Spec.missed h.
Proof.
  unfold missed, Spec.missed.
  destruct (String.eqb_spec (habit_id h) "screen") as [E | E].
  - rewrite gt_true_iff. intuition congruence.
  - rewrite lt_true_iff. intuition congruence.
Qed.

(** C1. The goal-achievement test of every derivation (the summary badges,
    the overall progress count, the sliders) is the same: a habit whose id
    is "screen" is achieved exactly when [current <= goal], and a habit of
    any other id exactly when [current >= goal]. *)
Theorem goal_achievement_by_direction (h : HabitData) :
  (habit_id h = "screen" ->
     (summary_goalMet h = true <-> (current h <= goal h)%Q) /\
     (completed h = true <-> (current h <= goal h)%Q) /\
     (isOnTarget h = true <-> (current h <= goal h)%Q)) /\
  (habit_id h <> "screen" ->
     (summary_goalMet h = true <-> (goal h <= current h)%Q) /\
     (completed h = true <-> (goal h <= current h)%Q) /\
     (isOnTarget h = true <-> (goal h <= current h)%Q)).
Proof.
  unfold summary_goalMet, completed, isOnTarget.
  split; intro E.
  - rewrite E. simpl. rewrite le_true_iff. tauto.
  - apply String.eqb_neq in E. rewrite E. rewrite ge_true_iff. tauto.
Qed.

(** ** Arrays *)

Lemma mapThrow_nth {A B : Type} (f : A -> option B) (l : list A) (l' : list B) :
  JS.mapThrow f l = Some l' ->
  List.length l' = List.length l /\
  forall i a, nth_error l i = Some a ->
    exists b, f a = Some b /\ nth_error l' i = Some b.
Proof.
  revert l'. induction l as [| x l IH]; intros l' H; simpl in H.
  - injection H as <-. split; [reflexivity |].
    intros [| i] a Hi; discriminate.
  - destruct (f x) as [b |] eqn:Fx; [| discriminate].
    destruct (JS.mapThrow f l) as [bs |] eqn:R; [| discriminate].
    injection H as <-. destruct (IH bs eq_refl) as [Len Nth].
    split; [simpl; congruence |].
    intros [| i] a Hi; simpl in Hi |- *.
    + injection Hi as <-. eauto.
    + eauto.
Qed.

Lemma mapThrow_total {A B : Type} (f : A -> option B) (l : list A) :
  (forall a, In a l -> f a <> None) -> exists l', JS.mapThrow f l = Some l'.
Proof.
  induction l as [| x l IH]; intro H; simpl.
  - eauto.
  - destruct (f x) as [b |] eqn:Fx.
    + destruct IH as [bs ->]; [intros a Ha; apply H; now right |]. eauto.
    + exfalso. apply (H x); [now left | exact Fx].
Qed.

Lemma mapThrow_id {A : Type} (f : A -> option A) (l : list A) :
  (forall a, In a l -> f a = Some a) -> JS.mapThrow f l = Some l.
Proof.
  induction l as [| x l IH]; intro H; simpl; [reflexivity |].
  rewrite (H x) by now left.
  rewrite IH; [reflexivity |]. intros a Ha. apply H. now right.
Qed.

Lemma get_last {A : Type} (l : list A) (p : A) :
  JS.get (l ++ [p]) (JS.length (l ++ [p]) - 1) = Some p.
Proof.
  unfold JS.get, JS.length. rewrite length_app. simpl.
  replace (Z.of_nat (List.length l + 1) - 1) with (Z.of_nat (List.length l)) by lia.
  destruct (Z.ltb_spec (Z.of_nat (List.length l)) 0) as [C | _]; [lia |].
  rewrite Nat2Z.id, nth_error_app2, Nat.sub_diag; [reflexivity | lia].
Qed.

Lemma get_empty {A : Type} : JS.get (@nil A) (JS.length (@nil A) - 1) = None.
Proof. reflexivity. Qed.

Lemma slice0_but_last {A : Type} (l : list A) (p : A) :
  JS.slice0 (l ++ [p]) (-1) = l.
Proof.
  unfold JS.slice0, JS.length. rewrite length_app. simpl.
  replace (Z.to_nat (Z.max (Z.of_nat (List.length l + 1) + -1) 0))
    with (List.length l) by lia.
  rewrite firstn_app, Nat.sub_diag, firstn_all. simpl. apply app_nil_r.
Qed.

(** The habit [withValue] builds from a habit with at least one data
    point. *)
Lemma withValue_last (v : Q) (h : HabitData) (l : list DataPoint) (p : DataPoint) :
  data h = l ++ [p] ->
  withValue v h =
    Some (mkHabit (habit_id h) (name h) (icon h) (habit_unit h) (color h)
            (goal h) v (l ++ [mkDataPoint (day p) v])).
Proof.
  intro E. unfold withValue. rewrite E, get_last, slice0_but_last. reflexivity.
Qed.

Lemma withValue_throws (v : Q) (h : HabitData) :
  withValue v h = None <-> data h = [].
Proof.
  destruct (data h) as [| d l] eqn:E.
  - unfold withValue. rewrite E. simpl. tauto.
  - destruct (@exists_last _ (d :: l)) as (l' & p & E'); [discriminate |].
    rewrite E' in E. rewrite (withValue_last v h l' p E).
    split; intro C; discriminate.
Qed.

(** ** The habit value update *)

(** [handleHabitChange] in closed form: what it announces is decided on the
    habit [find] returns, and the new habit list is the mapped one. *)
Lemma handleHabitChange_run (s : AppState) (id : string) (v : Q) :
  handleHabitChange id v s =
    let announce :=
      match JS.find (fun h => (habit_id h =? id)%string) (habits s) with
      | Some h =>
          if goalMetAt h v && negb (goalMetAt h (current h))
          then Some (goalAchievedMessage (name h)) else None
      | None => None
      end in
    match JS.mapThrow (fun habit =>
            if (habit_id habit =? id)%string
            then withValue v habit else Some habit) (habits s) with
    | None => None
    | Some hs =>
        Some (tt,
              mkState (streak s) (lastCheckin s) (todayComplete s)
                (match announce with Some m => Some m | None => notification s end)
                (reminders s) hs,
              match announce with
              | Some m => [Notify m; ClearNotificationAfter 3000]
              | None => []
              end)
    end.
Proof.
  unfold handleHabitChange, bind, getState, goalMetAt, setHabits,
    setNotification, setTimeout_clearNotification, ret.
  cbv zeta.
  destruct (JS.find _ (habits s)) as [h |].
  - destruct (_ && _); cbn [habits];
      destruct (JS.mapThrow _ (habits s)); reflexivity.
  - cbn [habits]. destruct (JS.mapThrow _ (habits s)); reflexivity.
Qed.

Lemma handleHabitChange_returns (s : AppState) (id : string) (v : Q) :
  (forall h, In h (habits s) -> habit_id h = id -> data h <> []) ->
  exists s' log, handleHabitChange id v s = Some (tt, s', log).
Proof.
  intro Hdata. rewrite handleHabitChange_run. cbv zeta.
  destruct (mapThrow_total
              (fun habit => if (habit_id habit =? id)%string
                            then withValue v habit else Some habit) (habits s))
    as [hs ->]; [| eauto].
  intros h Hin. destruct (String.eqb_spec (habit_id h) id) as [E | E].
  - rewrite withValue_throws. auto.
  - discriminate.
Qed.

(** What a successful [handleHabitChange] leaves in the state. *)
Lemma handleHabitChange_inv (s s' : AppState) (id : string) (v : Q)
      (log : list Effect) :
  handleHabitChange id v s = Some (tt, s', log) ->
  JS.mapThrow (fun habit => if (habit_id habit =? id)%string
                            then withValue v habit else Some habit) (habits s)
    = Some (habits s') /\
  streak s' = streak s /\ lastCheckin s' = lastCheckin s /\
  todayComplete s' = todayComplete s /\ reminders s' = reminders s.
Proof.
  rewrite handleHabitChange_run. cbv zeta.
  destruct (JS.mapThrow _ (habits s)) as [hs |]; [| discriminate].
  intro H. injection H as <- _. simpl. auto.
Qed.

(** C2. After the habit value update with the value [v], every habit whose
    id is the updated one has [current = v], its last data entry has the
    value [v] and the day label it had, its earlier data entries are
    unchanged, and every other habit is the record it was. *)
Theorem handleHabitChange_sets_today (s : AppState) (id : string) (v : Q)
    (Hdata : forall h, In h (habits s) -> habit_id h = id -> data h <> []) :
  exists s' log,
    handleHabitChange id v s = Some (tt, s', log) /\
    List.length (habits s') = List.length (habits s) /\
    forall i h, nth_error (habits s) i = Some h ->
      exists h', nth_error (habits s') i = Some h' /\
        (habit_id h <> id -> h' = h) /\
        (habit_id h = id ->
           current h' = v /\
           habit_id h' = habit_id h /\ name h' = name h /\
           icon h' = icon h /\ habit_unit h' = habit_unit h /\
           color h' = color h /\ goal h' = goal h /\
           exists earlier today,
             data h = earlier ++ [today] /\
             data h' = earlier ++ [mkDataPoint (day today) v]).
Proof.
  destruct (handleHabitChange_returns s id v Hdata) as (s' & log & Run).
  exists s', log. split; [exact Run |].
  destruct (handleHabitChange_inv _ _ _ _ _ Run) as (Map & _).
  destruct (mapThrow_nth _ _ _ Map) as [Len Nth].
  split; [exact Len |].
  intros i h Hi. destruct (Nth i h Hi) as (h' & Fh & Hi').
  exists h'. split; [exact Hi' |].
  destruct (String.eqb_spec (habit_id h) id) as [E | E].
  - split; [intro C; contradiction |]. intros _.
    destruct (data h) as [| d l] eqn:D.
    { exfalso. apply (Hdata h); [eapply nth_error_In; eauto | exact E | exact D]. }
    destruct (@exists_last _ (d :: l)) as (earlier & today & E'); [discriminate |].
    rewrite E' in D. rewrite (withValue_last v h earlier today D) in Fh.
    injection Fh as <-. simpl. repeat split; try reflexivity.
    exists earlier, today. split; [congruence | reflexivity].
  - injection Fh as <-. split; [reflexivity | intro C; contradiction].
Qed.

(** C6. The habit value update announces "goal achieved" exactly when the
    goal of the habit was not met at its old [current] and is met at the new
    value; it announces nothing when the goal was already met or stays
    unmet. *)
Theorem handleHabitChange_announces_transition
    (s : AppState) (id : string) (v : Q) (h : HabitData)
    (Hfind : JS.find (fun h => (habit_id h =? id)%string) (habits s) = Some h)
    (Hdata : forall h, In h (habits s) -> habit_id h = id -> data h <> []) :
  exists s' log,
    handleHabitChange id v s = Some (tt, s', log) /\
    (notifications log = [goalAchievedMessage (name h)] <->
       ~ Spec.achieved h /\ Spec.achievedAt h v) /\
    (Spec.achieved h -> notifications log = []) /\
    (~ Spec.achievedAt h v -> notifications log = []).
Proof.
  destruct (handleHabitChange_returns s id v Hdata) as (s' & log & Run).
  exists s', log. split; [exact Run |].
  rewrite handleHabitChange_run, Hfind in Run. cbv zeta in Run.
  destruct (JS.mapThrow _ (habits s)) as [hs |]; [| discriminate].
  unfold Spec.achieved. rewrite <- !goalMetAt_iff.
  destruct (goalMetAt h v), (goalMetAt h (current h));
    simpl in Run; injection Run as _ <-; simpl;
    repeat split; intros; try reflexivity; try discriminate;
    intuition congruence.
Qed.

(** ** Check-in *)

Lemma handleCheckIn_run (s : AppState) (now : Date) :
  handleCheckIn now s =
    if todayComplete s
    then Some (tt, s, [])
    else Some (tt,
               mkState (streak s + 1) (Some now) true (Some checkInMessage)
                 (reminders s) (habits s),
               [Notify checkInMessage; ClearNotificationAfter 3000]).
Proof.
  unfold handleCheckIn, bind, getState. simpl.
  destruct (todayComplete s); reflexivity.
Qed.

(** C3. A check-in with [todayComplete] false sets [lastCheckin] to the
    current time, [todayComplete] to true and adds exactly 1 to [streak];
    with [todayComplete] true it changes no state and shows no
    notification.  Two check-ins in a row therefore change [streak] once. *)
Theorem handleCheckIn_once_a_day (s : AppState) (now now2 : Date) :
  (todayComplete s = false ->
     exists s' log,
       handleCheckIn now s = Some (tt, s', log) /\
       lastCheckin s' = Some now /\ todayComplete s' = true /\
       streak s' = streak s + 1 /\
       habits s' = habits s /\ reminders s' = reminders s /\
       notifications log = [checkInMessage]) /\
  (todayComplete s = true -> handleCheckIn now s = Some (tt, s, [])) /\
  (exists s1 log1,
     handleCheckIn now s = Some (tt, s1, log1) /\
     handleCheckIn now2 s1 = Some (tt, s1, []) /\
     (todayComplete s = false -> streak s1 = streak s + 1) /\
     (todayComplete s = true -> streak s1 = streak s)).
Proof.
  rewrite handleCheckIn_run.
  destruct (todayComplete s) eqn:T.
  - split; [discriminate |]. split; [reflexivity |].
    exists s, []. rewrite handleCheckIn_run, T.
    repeat split; congruence.
  - split.
    { intros _. eexists _, _. split; [reflexivity |]. simpl. auto 10. }
    split; [discriminate |].
    eexists _, _. split; [reflexivity |].
    rewrite handleCheckIn_run. simpl. repeat split; congruence.
Qed.

(** ** Day rollover *)

Lemma checkNewDay_run (s : AppState) (now : Date) :
  checkNewDay now s =
    match lastCheckin s with
    | Some last =>
        if isNewDay now last
        then if missedDay now last
             then Some (tt,
                        mkState 0 (lastCheckin s) false (Some streakResetMessage)
                          (reminders s) (habits s),
                        [Notify streakResetMessage; ClearNotificationAfter 3000])
             else Some (tt,
                        mkState (streak s) (lastCheckin s) false (notification s)
                          (reminders s) (habits s),
                        [])
        else Some (tt, s, [])
    | None => Some (tt, s, [])
    end.
Proof.
  unfold checkNewDay, bind, getState. simpl.
  destruct (lastCheckin s) as [last |] eqn:L; [| reflexivity].
  destruct (isNewDay now last); [| reflexivity].
  destruct (missedDay now last); simpl; rewrite ?L; reflexivity.
Qed.

Lemma isNewDay_iff (now last : Date) :
  isNewDay now last = true <-> Spec.dateDiffers last now.
Proof.
  unfold isNewDay, Spec.dateDiffers.
  rewrite !orb_true_iff, !negb_true_iff, !Z.eqb_neq. tauto.
Qed.

Lemma missedDay_iff (now last : Date) :
  missedDay now last = true <->
  1 < getDate now - getDate last \/
  getMonth now <> getMonth last \/ getFullYear now <> getFullYear last.
Proof.
  unfold missedDay. cbv zeta.
  rewrite !orb_true_iff, !negb_true_iff, !Z.eqb_neq, Z.ltb_lt. tauto.
Qed.

(** Within one month the gap in calendar days is the difference of the days
    of the month. *)
Lemma calendarGap_same_month (last now : Date) :
  getFullYear now = getFullYear last -> getMonth now = getMonth last ->
  Spec.calendarGap last now = getDate now - getDate last.
Proof.
  intros Y Mo. unfold Spec.calendarGap, Spec.dayNumber. rewrite Y, Mo. lia.
Qed.

Lemma missedDay_of_gap (last now : Date) :
  1 < Spec.calendarGap last now \/
  getMonth now <> getMonth last \/ getFullYear now <> getFullYear last ->
  missedDay now last = true.
Proof.
  intro H. apply missedDay_iff.
  destruct (Z.eq_dec (getFullYear now) (getFullYear last)) as [Y | Y]; [| tauto].
  destruct (Z.eq_dec (getMonth now) (getMonth last)) as [Mo | Mo]; [| tauto].
  rewrite (calendarGap_same_month last now Y Mo) in H. tauto.
Qed.

(** C4. When the calendar date of the current time differs from that of
    [lastCheckin], the day-rollover check sets [todayComplete] to false;
    when moreover the gap from [lastCheckin] to the current time is more
    than one calendar day, or the month or the year differs, it sets
    [streak] to 0 and shows the streak-reset notification.  A [lastCheckin] two days earlier in the same month gives
    [todayComplete] false and [streak] 0. *)
Theorem checkNewDay_rollover (s : AppState) (last now : Date)
    (Hlast : lastCheckin s = Some last)
    (Hdiff : Spec.dateDiffers last now) :
  exists s' log,
    checkNewDay now s = Some (tt, s', log) /\
    todayComplete s' = false /\
    (1 < Spec.calendarGap last now \/
     getMonth now <> getMonth last \/ getFullYear now <> getFullYear last ->
       streak s' = 0 /\ notifications log = [streakResetMessage]) /\
    (getFullYear now = getFullYear last -> getMonth now = getMonth last ->
     getDate now = getDate last + 2 ->
       todayComplete s' = false /\ streak s' = 0).
Proof.
  rewrite checkNewDay_run, Hlast.
  apply isNewDay_iff in Hdiff. rewrite Hdiff.
  destruct (missedDay now last) eqn:Missed.
  - eexists _, _. split; [reflexivity |]. simpl. auto.
  - eexists _, _. split; [reflexivity |]. simpl.
    split; [reflexivity |]. split.
    + intro G. apply missedDay_of_gap in G. congruence.
    + intros Y Mo D. exfalso.
      assert (missedDay now last = true); [| congruence].
      apply missedDay_iff. left. lia.
Qed.

(** ** Reminders *)

Lemma checkMissedHabits_run (s : AppState) :
  checkMissedHabits s =
    Some (tt,
          mkState (streak s) (lastCheckin s) (todayComplete s) (notification s)
            (List.map reminderMessage (List.filter missed (habits s))) (habits s),
          []).
Proof.
  unfold checkMissedHabits, bind, getState. simpl.
  destruct (List.filter missed (habits s)); reflexivity.
Qed.

Lemma filter_nil_iff {A : Type} (p : A -> bool) (l : list A) :
  List.filter p l = [] <-> forall a, In a l -> p a = false.
Proof.
  induction l as [| x l IH]; simpl.
  - tauto.
  - destruct (p x) eqn:Px.
    + split; [discriminate |]. intro H. specialize (H x (or_introl eq_refl)).
      congruence.
    + rewrite IH. split.
      * intros H a [<- | Ha]; auto.
      * intros H a Ha. apply H. now right.
Qed.

(** C5. After the missed-habit derivation the reminder list holds one
    message for each habit whose goal is not met ([current > goal] for the
    screen habit, [current < goal] for the others), in the order of the
    habits, worded with "limit" for the screen habit and "complete" for the
    others; it is empty exactly when every habit's goal is met. *)
Theorem checkMissedHabits_reminders (s : AppState) :
  exists s',
    checkMissedHabits s = Some (tt, s', []) /\
    reminders s' = List.map reminderMessage (List.filter missed (habits s)) /\
    (forall h, missed h = true <-> Spec.missed h) /\
    (forall h, Spec.missed h <-> ~ Spec.achieved h) /\
    (forall h,
       (habit_id h = "screen" ->
          reminderMessage h =
            ("Don't forget to limit your " ++ JS.toLowerCase (name h)
             ++ " goal!")%string) /\
       (habit_id h <> "screen" ->
          reminderMessage h =
            ("Don't forget to complete your " ++ JS.toLowerCase (name h)
             ++ " goal!")%string)) /\
    (reminders s' = [] <-> forall h, In h (habits s) -> Spec.achieved h) /\
    habits s' = habits s /\ streak s' = streak s /\
    lastCheckin s' = lastCheckin s /\ todayComplete s' = todayComplete s /\
    notification s' = notification s.
Proof.
  eexists. split; [apply checkMissedHabits_run |]. simpl.
  split; [reflexivity |].
  split; [exact missed_iff |].
  split.
  { intro h. rewrite <- missed_iff, <- completed_false_iff,
      missed_negb_completed. apply negb_true_iff. }
  split.
  { intro h. unfold reminderMessage. split; intro E.
    - rewrite E. reflexivity.
    - apply String.eqb_neq in E. rewrite E. reflexivity. }
  split; [| auto 10].
  split.
  - intros E h Hin. apply completed_iff.
    apply map_eq_nil in E.
    pose proof (proj1 (filter_nil_iff missed (habits s)) E h Hin) as Mh.
    rewrite missed_negb_completed in Mh. now apply negb_false_iff.
  - intro All.
    replace (List.filter missed (habits s)) with (@nil HabitData); [reflexivity |].
    symmetry. apply filter_nil_iff. intros h Hin.
    rewrite missed_negb_completed. apply negb_false_iff, completed_iff. auto.
Qed.

(** ** Rounding to doubles *)

Lemma Double_floor_frac (x : Q) :
  (0 <= x - inject_Z (Qfloor x))%Q /\ (x - inject_Z (Qfloor x) < 1)%Q.
Proof.
  pose proof (Qfloor_le x) as L. pose proof (Qlt_floor x) as U.
  rewrite inject_Z_plus in U. change (inject_Z 1) with 1%Q in U.
  split; lra.
Qed.

Lemma Double_rne_bounds (x : Q) : Qfloor x <= Double.rne x <= Qfloor x + 1.
Proof.
  unfold Double.rne. cbv zeta.
  destruct (x - inject_Z (Qfloor x) ?= 1 # 2)%Q; [| lia | lia].
  destruct (Z.even (Qfloor x)); lia.
Qed.

(** [rne] is monotone and fixes the integers. *)
Lemma Double_rne_mono (x y : Q) : (x <= y)%Q -> Double.rne x <= Double.rne y.
Proof.
  intro H. pose proof (Qfloor_resp_le x y H) as F.
  destruct (Z.eq_dec (Qfloor x) (Qfloor y)) as [E | N].
  - unfold Double.rne. cbv zeta. rewrite E.
    destruct (Qcompare_spec (x - inject_Z (Qfloor y)) (1 # 2)) as [Cx | Cx | Cx];
      destruct (Qcompare_spec (y - inject_Z (Qfloor y)) (1 # 2)) as [Cy | Cy | Cy];
      try destruct (Z.even (Qfloor y)); try lia; exfalso; lra.
  - pose proof (Double_rne_bounds x). pose proof (Double_rne_bounds y). lia.
Qed.

Lemma Double_rne_int (z : Z) : Double.rne (inject_Z z) = z.
Proof.
  unfold Double.rne. cbv zeta. rewrite Qfloor_Z.
  assert (E : (inject_Z z - inject_Z z ?= 1 # 2)%Q = Lt).
  { apply (proj1 (Qlt_alt _ _)). generalize (inject_Z z). intro q. lra. }
  now rewrite E.
Qed.

Lemma Double_pow2_pos (e : Z) : (0 < 2 ^ e)%Q.
Proof. apply Qpower_0_lt. reflexivity. Qed.

Lemma Double_pow2_le (a b : Z) : a <= b -> (2 ^ a <= 2 ^ b)%Q.
Proof. intro H. apply Qpower_le_compat_l; [exact H | discriminate]. Qed.

Lemma Double_pow2_plus (a b : Z) : (2 ^ (a + b) == 2 ^ a * 2 ^ b)%Q.
Proof. apply Qpower_plus. discriminate. Qed.

(** [exponent] is the binary exponent. *)
Lemma Double_exponent_spec (x : Q) :
  (0 < x)%Q ->
  (2 ^ Double.exponent x <= x)%Q /\ (x < 2 ^ (Double.exponent x + 1))%Q.
Proof.
  intro P. destruct x as [n d].
  assert (Pn : 0 < n). { unfold Qlt in P. simpl in P. lia. }
  unfold Double.exponent. simpl Qnum. simpl Qden.
  set (ln := Z.log2 n). set (ld := Z.log2 (Z.pos d)).
  destruct (Z.log2_spec n Pn) as [Ln Un]. fold ln in Ln, Un.
  destruct (Z.log2_spec (Z.pos d) ltac:(lia)) as [Ld Ud]. fold ld in Ld, Ud.
  assert (Nln : 0 <= ln) by apply Z.log2_nonneg.
  assert (Nld : 0 <= ld) by apply Z.log2_nonneg.
  assert (X : (n # d == inject_Z n / inject_Z (Z.pos d))%Q) by apply Qmake_Qdiv.
  assert (Pd : (0 < inject_Z (Z.pos d))%Q).
  { change 0%Q with (inject_Z 0). rewrite <- Zlt_Qlt. lia. }
  assert (QLn : (2 ^ ln <= inject_Z n)%Q).
  { rewrite <- (Zpower_Qpower 2 ln Nln). rewrite <- Zle_Qle. exact Ln. }
  assert (QUn : (inject_Z n < 2 ^ (ln + 1))%Q).
  { rewrite <- (Zpower_Qpower 2 (ln + 1)) by lia. rewrite <- Zlt_Qlt.
    unfold Z.succ in Un. exact Un. }
  assert (QLd : (2 ^ ld <= inject_Z (Z.pos d))%Q).
  { rewrite <- (Zpower_Qpower 2 ld Nld). rewrite <- Zle_Qle. exact Ld. }
  assert (QUd : (inject_Z (Z.pos d) < 2 ^ (ld + 1))%Q).
  { rewrite <- (Zpower_Qpower 2 (ld + 1)) by lia. rewrite <- Zlt_Qlt.
    unfold Z.succ in Ud. exact Ud. }
  assert (Up : (n # d < 2 ^ (ln - ld + 1))%Q).
  { rewrite X. apply Qlt_shift_div_r; [exact Pd |].
    apply (Qlt_le_trans _ _ _ QUn).
    replace (ln + 1) with ((ln - ld + 1) + ld) by lia.
    rewrite Double_pow2_plus. apply Qmult_le_l; [apply Double_pow2_pos | exact QLd]. }
  assert (Lo : (2 ^ (ln - ld - 1) < n # d)%Q).
  { rewrite X. apply Qlt_shift_div_l; [exact Pd |].
    apply (Qlt_le_trans _ (2 ^ (ln - ld - 1) * 2 ^ (ld + 1))).
    - apply Qmult_lt_l; [apply Double_pow2_pos | exact QUd].
    - rewrite <- Double_pow2_plus. replace (ln - ld - 1 + (ld + 1)) with ln by lia.
      exact QLn. }
  destruct (Qle_bool (2 ^ (ln - ld)) (n # d)) eqn:B.
  - apply Qle_bool_iff in B. split; [exact B | exact Up].
  - split; [apply Qlt_le_weak; exact Lo |].
    replace (ln - ld - 1 + 1) with (ln - ld) by lia.
    apply Qnot_le_lt. intro C. apply Qle_bool_iff in C. congruence.
Qed.

Lemma Double_round_pos_eq (x : Q) :
  (0 < x)%Q ->
  Double.round x
  = (inject_Z (Double.rne (x / 2 ^ (Double.exponent (Qabs x) - 52)))
     * 2 ^ (Double.exponent (Qabs x) - 52))%Q.
Proof.
  intro P. unfold Double.round.
  destruct (Qeq_bool x 0) eqn:Z0; [| reflexivity].
  apply Qeq_bool_eq in Z0. rewrite Z0 in P. exfalso. exact (Qlt_irrefl 0 P).
Qed.

Lemma Double_abs_spec (x : Q) :
  (0 < x)%Q ->
  (2 ^ Double.exponent (Qabs x) <= x)%Q /\
  (x < 2 ^ (Double.exponent (Qabs x) + 1))%Q.
Proof.
  intro P. assert (A : (Qabs x == x)%Q) by (apply Qabs_pos; lra).
  assert (PA : (0 < Qabs x)%Q) by (rewrite A; exact P).
  destruct (Double_exponent_spec (Qabs x) PA) as [L U].
  rewrite A in L at 2. rewrite A in U at 1. split; assumption.
Qed.

(** Rounding stays in the binade of its argument, ends included. *)
Lemma Double_round_pos_bounds (x : Q) :
  (0 < x)%Q ->
  (2 ^ Double.exponent (Qabs x) <= Double.round x)%Q /\
  (Double.round x <= 2 ^ (Double.exponent (Qabs x) + 1))%Q.
Proof.
  intro P. rewrite (Double_round_pos_eq x P).
  destruct (Double_abs_spec x P) as [L U].
  set (e := Double.exponent (Qabs x)) in *.
  assert (Ps : (0 < 2 ^ (e - 52))%Q) by apply Double_pow2_pos.
  assert (Lm : (inject_Z (2 ^ 52) <= x / 2 ^ (e - 52))%Q).
  { apply Qle_shift_div_l; [exact Ps |].
    rewrite (Zpower_Qpower 2 52) by lia. change (inject_Z 2) with 2%Q.
    rewrite <- Double_pow2_plus. replace (52 + (e - 52)) with e by lia. exact L. }
  assert (Um : (x / 2 ^ (e - 52) <= inject_Z (2 ^ 53))%Q).
  { apply Qle_shift_div_r; [exact Ps |].
    rewrite (Zpower_Qpower 2 53) by lia. change (inject_Z 2) with 2%Q.
    rewrite <- Double_pow2_plus. replace (53 + (e - 52)) with (e + 1) by lia.
    apply Qlt_le_weak. exact U. }
  apply Double_rne_mono in Lm. apply Double_rne_mono in Um. rewrite Double_rne_int in Lm, Um.
  split.
  - replace e with (52 + (e - 52)) at 1 by lia. rewrite Double_pow2_plus.
    apply Qmult_le_compat_r; [| apply Qlt_le_weak; exact Ps].
    rewrite <- (Zpower_Qpower 2 52) by lia. rewrite <- Zle_Qle. exact Lm.
  - replace (e + 1) with (53 + (e - 52)) by lia. rewrite Double_pow2_plus.
    apply Qmult_le_compat_r; [| apply Qlt_le_weak; exact Ps].
    rewrite <- (Zpower_Qpower 2 53) by lia. rewrite <- Zle_Qle. exact Um.
Qed.

Lemma Double_round_0 (x : Q) : (x == 0)%Q -> Double.round x = 0%Q.
Proof.
  intro E. unfold Double.round. apply Qeq_bool_iff in E. now rewrite E.
Qed.

Lemma Double_round_pos (x : Q) : (0 < x)%Q -> (0 < Double.round x)%Q.
Proof.
  intro P. destruct (Double_round_pos_bounds x P) as [L _].
  exact (Qlt_le_trans _ _ _ (Double_pow2_pos _) L).
Qed.

Lemma Double_round_nonneg (x : Q) : (0 <= x)%Q -> (0 <= Double.round x)%Q.
Proof.
  intro P. destruct (Qlt_le_dec 0 x) as [C | C].
  - apply Qlt_le_weak, Double_round_pos, C.
  - rewrite Double_round_0; [apply Qle_refl | lra].
Qed.

(** Rounding is monotone on the numbers from 0 up. *)
Lemma Double_round_mono (x y : Q) :
  (0 <= x)%Q -> (x <= y)%Q -> (Double.round x <= Double.round y)%Q.
Proof.
  intros P H. destruct (Qlt_le_dec 0 x) as [Px | Zx].
  2:{ rewrite (Double_round_0 x) by lra. apply Double_round_nonneg. lra. }
  assert (Py : (0 < y)%Q) by lra.
  destruct (Double_abs_spec x Px) as [Lx Ux]. destruct (Double_abs_spec y Py) as [Ly Uy].
  destruct (Double_round_pos_bounds x Px) as [_ Rx].
  destruct (Double_round_pos_bounds y Py) as [Ry _].
  set (ex := Double.exponent (Qabs x)) in *.
  set (ey := Double.exponent (Qabs y)) in *.
  destruct (Z.lt_trichotomy ex ey) as [C | [C | C]].
  - apply (Qle_trans _ _ _ Rx). apply (Qle_trans _ (2 ^ ey)); [| exact Ry].
    apply Double_pow2_le. lia.
  - rewrite (Double_round_pos_eq x Px), (Double_round_pos_eq y Py).
    fold ex ey. rewrite C.
    apply Qmult_le_compat_r; [| apply Qlt_le_weak, Double_pow2_pos].
    rewrite <- Zle_Qle. apply Double_rne_mono.
    apply Qmult_le_compat_r; [exact H |].
    apply Qlt_le_weak, Qinv_lt_0_compat, Double_pow2_pos.
  - exfalso. assert (L : (2 ^ (ey + 1) <= 2 ^ ex)%Q) by (apply Double_pow2_le; lia).
    lra.
Qed.

Lemma Double_round_compat (x y : Q) :
  (0 <= x)%Q -> (x == y)%Q -> (Double.round x == Double.round y)%Q.
Proof.
  intros P E. apply Qle_antisym; apply Double_round_mono; lra.
Qed.

(** ** Overall progress *)

Lemma completedHabits_bounds (hs : list HabitData) :
  0 <= completedHabits hs <= JS.length hs.
Proof.
  unfold completedHabits, JS.length.
  pose proof (filter_length_le completed hs). lia.
Qed.

Lemma percentage_run (hs : list HabitData) :
  hs <> [] ->
  percentage hs =
    Some (JS.Math_round
            (Double.mul
               (Double.div (inject_Z (completedHabits hs))
                  (inject_Z (JS.length hs))) 100)).
Proof.
  intro Hne. unfold percentage, JS.div.
  destruct (Qeq_bool (inject_Z (JS.length hs)) 0) eqn:Z0; [| reflexivity].
  exfalso. apply Qeq_bool_eq in Z0.
  unfold Qeq, inject_Z, JS.length in Z0. simpl in Z0.
  destruct hs; [congruence | simpl in Z0; lia].
Qed.

(** [Math.round] returns the integer nearest to its argument, the upper one
    at a tie. *)
Lemma Math_round_nearest (x : Q) :
  (x - (1 # 2) < inject_Z (JS.Math_round x))%Q /\
  (inject_Z (JS.Math_round x) <= x + (1 # 2))%Q.
Proof.
  unfold JS.Math_round. split.
  - pose proof (Qlt_floor (x + (1 # 2))) as L.
    rewrite inject_Z_plus in L. change (inject_Z 1) with 1%Q in L.
    generalize dependent (inject_Z (Qfloor (x + (1 # 2)))). intros f L. lra.
  - apply Qfloor_le.
Qed.

Lemma Math_round_le (x y : Q) :
  (x <= y)%Q -> JS.Math_round x <= JS.Math_round y.
Proof.
  intro H. unfold JS.Math_round. apply Qfloor_resp_le.
  apply Qplus_le_l. exact H.
Qed.

Lemma ratio_le (k k' n : Z) :
  0 < n -> 0 <= k <= k' ->
  (0 <= inject_Z k / inject_Z n)%Q /\
  (inject_Z k / inject_Z n <= inject_Z k' / inject_Z n)%Q.
Proof.
  intros Hn Hk.
  assert (I : (0 <= / inject_Z n)%Q).
  { apply Qinv_le_0_compat. replace 0%Q with (inject_Z 0) by reflexivity.
    rewrite <- Zle_Qle. lia. }
  unfold Qdiv. split.
  - apply Qmult_le_0_compat; [| exact I].
    replace 0%Q with (inject_Z 0) by reflexivity. rewrite <- Zle_Qle. lia.
  - apply Qmult_le_compat_r; [| exact I]. rewrite <- Zle_Qle. lia.
Qed.

(** The rounded quotient times 100, rounded and passed to [Math.round],
    grows with the quotient. *)
Lemma percent_le (x y : Q) :
  (0 <= x)%Q -> (x <= y)%Q ->
  JS.Math_round (Double.mul (Double.round x) 100)
  <= JS.Math_round (Double.mul (Double.round y) 100).
Proof.
  intros P H. apply Math_round_le. unfold Double.mul.
  pose proof (Double_round_nonneg x P) as Rx.
  pose proof (Double_round_mono x y P H) as Rxy.
  apply Double_round_mono.
  - apply Qmult_le_0_compat; [exact Rx | discriminate].
  - apply Qmult_le_compat_r; [exact Rxy | discriminate].
Qed.

Lemma completedHabits_flip (pre post : list HabitData) (h h' : HabitData) :
  completed h = false -> completed h' = true ->
  completedHabits (pre ++ h' :: post) = completedHabits (pre ++ h :: post) + 1 /\
  JS.length (pre ++ h' :: post) = JS.length (pre ++ h :: post).
Proof.
  intros F T. unfold completedHabits, JS.length.
  rewrite !filter_app, !length_app. simpl. rewrite F, T. simpl. lia.
Qed.

(** ** The goal update *)

Lemma updateHabitGoal_run (s : AppState) (id : string) (g : Q) :
  updateHabitGoal id g s =
    let msg :=
      goalUpdatedMessage
        (option_map name
           (JS.find (fun h => (habit_id h =? id)%string) (habits s))) in
    Some (tt,
          mkState (streak s) (lastCheckin s) (todayComplete s) (Some msg)
            (reminders s)
            (List.map (fun habit =>
               if (habit_id habit =? id)%string then withGoal g habit else habit)
               (habits s)),
          [Notify msg; ClearNotificationAfter 3000]).
Proof. reflexivity. Qed.

(** ** Unknown ids *)








(** ** Notifications of each path *)

Lemma celebration_head :
  exists r, celebration = String (ascii_of_nat 239) r.
Proof. eexists. reflexivity. Qed.

Lemma goalAchieved_not_goalUpdated (n : string) (habitName : option string) :
  goalAchievedMessage n <> goalUpdatedMessage habitName.
Proof.
  unfold goalAchievedMessage, goalUpdatedMessage.
  destruct celebration_head as [r ->]. simpl. discriminate.
Qed.

Lemma goalAchieved_not_checkIn (n : string) :
  goalAchievedMessage n <> checkInMessage.
Proof.
  unfold goalAchievedMessage, checkInMessage.
  destruct celebration_head as [r ->]. simpl. discriminate.
Qed.

Lemma goalAchieved_not_streakReset (n : string) :
  goalAchievedMessage n <> streakResetMessage.
Proof.
  unfold goalAchievedMessage, streakResetMessage.
  destruct celebration_head as [r ->]. simpl. discriminate.
Qed.

(** C10. The goal update shows the "goal updated" notification and nothing
    else, whatever the new goal does to the achievement of the habit; a
    "goal achieved" notification comes from the habit value update only. *)
Theorem goal_update_never_announces_achievement :
  (forall (s : AppState) (id : string) (g : Q) (h : HabitData),
     JS.find (fun h => (habit_id h =? id)%string) (habits s) = Some h ->
     exists s' log,
       updateHabitGoal id g s = Some (tt, s', log) /\
       notifications log = [goalUpdatedMessage (Some (name h))] /\
       forall n, ~ In (goalAchievedMessage n) (notifications log)) /\
  (forall (s : AppState) (e : Event) (s' : AppState) (log : list Effect)
          (n : string),
     step s e s' log ->
     In (goalAchievedMessage n) (notifications log) ->
     exists id v, e = HabitChange id v).
Proof.
  split.
  - intros s id g h Hfind. rewrite updateHabitGoal_run, Hfind.
    eexists _, _. split; [reflexivity |]. simpl.
    split; [reflexivity |].
    intros n [C | []]. symmetry in C.
    exact (goalAchieved_not_goalUpdated n (Some (name h)) C).
  - intros s e s' log n Hstep Hin. unfold step in Hstep.
    destruct e as [id v | id g | now | now | |]; simpl in Hstep.
    + eauto.
    + rewrite updateHabitGoal_run in Hstep. cbv zeta in Hstep.
      injection Hstep as _ <-. simpl in Hin. destruct Hin as [C | []].
      symmetry in C. exfalso.
      exact (goalAchieved_not_goalUpdated n _ C).
    + rewrite handleCheckIn_run in Hstep.
      destruct (todayComplete s); injection Hstep as _ <-;
        simpl in Hin; [tauto |].
      destruct Hin as [C | []]. symmetry in C. exfalso.
      exact (goalAchieved_not_checkIn n C).
    + rewrite checkNewDay_run in Hstep.
      destruct (lastCheckin s) as [last |];
        [destruct (isNewDay now last); [destruct (missedDay now last) |] |];
        injection Hstep as _ <-; simpl in Hin; try tauto.
      destruct Hin as [C | []]. symmetry in C. exfalso.
      exact (goalAchieved_not_streakReset n C).
    + rewrite checkMissedHabits_run in Hstep.
      injection Hstep as _ <-. simpl in Hin. tauto.
    + unfold clearNotification in Hstep.
      injection Hstep as _ <-. simpl in Hin. tauto.
Qed.

(** ** Reachable states *)

Lemma withValue_shape (v : Q) (h h' : HabitData) :
  withValue v h = Some h' ->
  habit_id h' = habit_id h /\
  List.length (data h') = List.length (data h).
Proof.
  intro W. destruct (data h) as [| d l] eqn:D.
  - apply (proj2 (withValue_throws v h)) in D. congruence.
  - destruct (@exists_last _ (d :: l)) as (earlier & today & E); [discriminate |].
    rewrite E in D. rewrite (withValue_last v h earlier today D) in W.
    injection W as <-. simpl. split; [reflexivity |].
    change (S (List.length l)) with (List.length (d :: l)).
    rewrite E, !length_app. reflexivity.
Qed.

Lemma mapThrow_habits_shape (id : string) (v : Q) (hs hs' : list HabitData) :
  JS.mapThrow (fun habit => if (habit_id habit =? id)%string
                            then withValue v habit else Some habit) hs
    = Some hs' ->
  List.map habit_id hs' = List.map habit_id hs /\
  List.map (fun h => List.length (data h)) hs'
    = List.map (fun h => List.length (data h)) hs.
Proof.
  revert hs'. induction hs as [| h hs IH]; intros hs' H; simpl in H.
  - injection H as <-. split; reflexivity.
  - destruct (if (habit_id h =? id)%string then withValue v h else Some h)
      as [h' |] eqn:Fh; [| discriminate].
    destruct (JS.mapThrow _ hs) as [r |]; [| discriminate].
    injection H as <-. destruct (IH r eq_refl) as [Ids Lens].
    assert (S : habit_id h' = habit_id h /\
                List.length (data h') = List.length (data h)).
    { destruct (habit_id h =? id)%string.
      - now apply withValue_shape in Fh.
      - injection Fh as <-. split; reflexivity. }
    destruct S as [Sid Slen]. simpl. split; congruence.
Qed.

Lemma step_invariant (s : AppState) (e : Event) (s' : AppState)
      (log : list Effect) :
  invariant s -> step s e s' log -> invariant s'.
Proof.
  unfold invariant, step. intros (St & Ids & Lens) Hstep.
  destruct e as [id v | id g | now | now | |]; simpl in Hstep.
  - destruct (handleHabitChange_inv _ _ _ _ _ Hstep) as (Map & -> & _).
    destruct (mapThrow_habits_shape _ _ _ _ Map) as [-> ->]. auto.
  - rewrite updateHabitGoal_run in Hstep. cbv zeta in Hstep.
    injection Hstep as <- _. simpl. rewrite !map_map.
    split; [exact St |]. rewrite <- Ids, <- Lens.
    split; apply map_ext; intro h; destruct (habit_id h =? id)%string;
      reflexivity.
  - rewrite handleCheckIn_run in Hstep.
    destruct (todayComplete s); injection Hstep as <- _; simpl; auto.
    split; [lia | auto].
  - rewrite checkNewDay_run in Hstep.
    destruct (lastCheckin s) as [last |];
      [destruct (isNewDay now last); [destruct (missedDay now last) |] |];
      injection Hstep as <- _; simpl; auto.
    split; [lia | auto].
  - rewrite checkMissedHabits_run in Hstep.
    injection Hstep as <- _. simpl. auto.
  - unfold clearNotification in Hstep.
    injection Hstep as <- _. simpl. auto.
Qed.

Lemma reachable_invariant (s : AppState) : reachable s -> invariant s.
Proof.
  induction 1 as [today | s e s' log _ IH Hstep].
  - unfold invariant. simpl. repeat split. lia.
  - exact (step_invariant s e s' log IH Hstep).
Qed.

(** In a reachable state no habit has an empty [data], so the habit value
    update never throws. *)
Lemma reachable_data (s : AppState) :
  reachable s -> forall h, In h (habits s) -> data h <> [].
Proof.
  intros R h Hin. destruct (reachable_invariant s R) as (_ & _ & Lens).
  assert (L : In (List.length (data h))
                 (List.map (fun h => List.length (data h)) (habits s))).
  { apply (in_map (fun h => List.length (data h))). exact Hin. }
  rewrite Lens in L. intro E. rewrite E in L. simpl in L.
  intuition discriminate.
Qed.

Lemma reachable_handleHabitChange_returns (s : AppState) (id : string) (v : Q) :
  reachable s -> exists s' log, handleHabitChange id v s = Some (tt, s', log).
Proof.
  intro R. apply handleHabitChange_returns.
  intros h Hin _. exact (reachable_data s R h Hin).
Qed.

(** With six habits the percentage is one of seven values. *)
Lemma percentage_six (hs : list HabitData) :
  List.length hs = 6%nat ->
  exists k,
    completedHabits hs = Z.of_nat k /\ (k <= 6)%nat /\
    percentage hs = nth_error [0; 17; 33; 50; 67; 83; 100] k.
Proof.
  intro L. pose proof (filter_length_le completed hs) as B.
  exists (List.length (List.filter completed hs)).
  split; [reflexivity |]. split; [lia |].
  unfold percentage, completedHabits, JS.length. rewrite L.
  destruct (List.length (List.filter completed hs))
    as [| [| [| [| [| [| [| k]]]]]]]; [.. | lia]; vm_compute; reflexivity.
Qed.

Lemma reachable_six (s : AppState) :
  reachable s -> List.length (habits s) = 6%nat.
Proof.
  intro R. destruct (reachable_invariant s R) as (_ & Ids & _).
  rewrite <- (length_map habit_id), Ids. reflexivity.
Qed.

Lemma reachable_percentage (s : AppState) :
  reachable s ->
  exists k,
    completedHabits (habits s) = Z.of_nat k /\ (k <= 6)%nat /\
    percentage (habits s) = nth_error [0; 17; 33; 50; 67; 83; 100] k.
Proof. intro R. apply percentage_six, reachable_six, R. Qed.

(** With fewer than 40 habits the rounding of the quotient and of the
    product does not show: the percentage is what the exact quotient
    gives.  (A tie of [Math.round] needs a quotient with the denominator 8,
    40 or 200; eighths are doubles, fortieths are not.) *)
Lemma percent_table :
  forallb
    (fun n =>
       forallb
         (fun k =>
            JS.Math_round
              (Double.mul
                 (Double.div (inject_Z (Z.of_nat k)) (inject_Z (Z.of_nat n)))
                 100)
            =? JS.Math_round
                 (inject_Z (Z.of_nat k) / inject_Z (Z.of_nat n) * 100)%Q)
         (seq 0 (S n)))
    (seq 1 39) = true.
Proof. vm_compute. reflexivity. Qed.

Lemma percent_small (k n : nat) :
  (0 < n < 40)%nat -> (k <= n)%nat ->
  JS.Math_round
    (Double.mul (Double.div (inject_Z (Z.of_nat k)) (inject_Z (Z.of_nat n))) 100)
  = JS.Math_round (inject_Z (Z.of_nat k) / inject_Z (Z.of_nat n) * 100)%Q.
Proof.
  intros Hn Hk.
  pose proof (proj1 (forallb_forall _ _) percent_table n) as T.
  cbv beta in T.
  assert (In1 : In n (seq 1 39)) by (apply in_seq; lia).
  pose proof (proj1 (forallb_forall _ _) (T In1) k) as T'.
  cbv beta in T'.
  assert (In2 : In k (seq 0 (S n))) by (apply in_seq; lia).
  apply Z.eqb_eq. exact (T' In2).
Qed.

(** C7. The page always holds six habits.  With fewer than 40 habits the
    progress percentage is the integer nearest to
    [100 * completedCount / totalHabitCount], where [completedCount] counts
    the habits that meet their goal.  In a list of any length the
    percentage does not decrease when one habit goes from not achieved to
    achieved while the others stay as they are.  (The quotient and the
    product are rounded to doubles before [Math.round]; from 40 habits on
    the result can be the integer next to the nearest one, see
    [percentage_of_forty].) *)
Theorem percentage_rounds_and_grows :
  (forall s : AppState, reachable s -> List.length (habits s) = 6%nat) /\
  (forall hs : list HabitData, hs <> [] -> (List.length hs < 40)%nat ->
     exists p,
       percentage hs = Some p /\
       completedHabits hs = Z.of_nat (List.length (List.filter completed hs)) /\
       (forall h, completed h = true <-> Spec.achieved h) /\
       let x := (100 * inject_Z (completedHabits hs)
                 / inject_Z (Z.of_nat (List.length hs)))%Q in
       (x - (1 # 2) < inject_Z p)%Q /\ (inject_Z p <= x + (1 # 2))%Q) /\
  (forall (pre post : list HabitData) (h h' : HabitData),
     ~ Spec.achieved h -> Spec.achieved h' ->
     exists p p',
       percentage (pre ++ h :: post) = Some p /\
       percentage (pre ++ h' :: post) = Some p' /\
       p <= p').
Proof.
  split; [exact reachable_six |]. split.
  - intros hs Hne Hlen. eexists. split; [apply percentage_run; exact Hne |].
    split; [reflexivity |]. split; [exact completed_iff |].
    cbv zeta. unfold completedHabits, JS.length.
    rewrite percent_small.
    + set (k := inject_Z (Z.of_nat (List.length (List.filter completed hs)))).
      set (n := inject_Z (Z.of_nat (List.length hs))).
      assert (E : (k / n * 100 == 100 * k / n)%Q).
      { unfold Qdiv. ring. }
      pose proof (Math_round_nearest (k / n * 100)) as [Lo Hi].
      split.
      * eapply Qle_lt_trans; [| exact Lo]. rewrite E. apply Qle_refl.
      * eapply Qle_trans; [exact Hi |]. rewrite E. apply Qle_refl.
    + destruct hs; [congruence | simpl in *; lia].
    + apply filter_length_le.
  - intros pre post h h' Hn Ha.
    apply completed_false_iff in Hn. apply completed_iff in Ha.
    destruct (completedHabits_flip pre post h h' Hn Ha) as [Ek En].
    rewrite !percentage_run by (destruct pre; discriminate).
    eexists _, _. split; [reflexivity |]. split; [reflexivity |].
    rewrite Ek, En. unfold Double.div.
    pose proof (completedHabits_bounds (pre ++ h :: post)) as B.
    destruct (ratio_le (completedHabits (pre ++ h :: post))
                (completedHabits (pre ++ h :: post) + 1)
                (JS.length (pre ++ h :: post))) as [P Q'].
    + unfold JS.length. rewrite length_app. simpl. lia.
    + lia.
    + apply percent_le; assumption.
Qed.

(** ** The streak *)

(** C8. Along a step from a reachable state the streak becomes 0 only in
    the missed-day branch of the day-rollover check: a check-in never
    lowers the streak (it leaves it or adds 1), and the habit value update
    and the goal update leave it as it is. *)
Theorem streak_resets_only_on_missed_day
    (s : AppState) (e : Event) (s' : AppState) (log : list Effect)
    (Hreach : reachable s) (Hstep : step s e s' log) :
  (streak s' = 0 ->
     streak s' = streak s \/
     exists now, e = NewDayTimer now /\ missedDayBranch s now) /\
  (streak s' <> streak s ->
     (exists now, e = CheckIn now /\ streak s' = streak s + 1) \/
     (exists now, e = NewDayTimer now /\ missedDayBranch s now /\ streak s' = 0)) /\
  (forall now, e = CheckIn now -> streak s <= streak s') /\
  (forall id v, e = HabitChange id v -> streak s' = streak s) /\
  (forall id g, e = GoalUpdate id g -> streak s' = streak s).
Proof.
  destruct (reachable_invariant s Hreach) as (St & _ & _).
  unfold step in Hstep.
  destruct e as [id v | id g | now | now | |]; simpl in Hstep.
  - destruct (handleHabitChange_inv _ _ _ _ _ Hstep) as (_ & E & _).
    repeat split; intros; try discriminate; auto; try congruence.
  - rewrite updateHabitGoal_run in Hstep. cbv zeta in Hstep.
    injection Hstep as <- _. simpl.
    repeat split; intros; try discriminate; auto; try congruence.
  - rewrite handleCheckIn_run in Hstep.
    destruct (todayComplete s); injection Hstep as <- _; simpl.
    + repeat split; intros; try discriminate; auto; try congruence; lia.
    + split; [intro C; lia |].
      split; [intros _; left; eauto |].
      split; [intros ? _; lia |].
      split; intros; discriminate.
  - rewrite checkNewDay_run in Hstep.
    destruct (lastCheckin s) as [last |] eqn:L;
      [destruct (isNewDay now last) eqn:N;
       [destruct (missedDay now last) eqn:D |] |];
      injection Hstep as <- _; simpl;
      try (repeat split; intros; try discriminate; auto; congruence).
    assert (B : missedDayBranch s now) by (exists last; auto).
    split; [intros _; right; eauto |].
    split; [intros _; right; eauto |].
    repeat split; intros; discriminate.
  - rewrite checkMissedHabits_run in Hstep.
    injection Hstep as <- _. simpl.
    repeat split; intros; try discriminate; auto; congruence.
  - unfold clearNotification in Hstep.
    injection Hstep as <- _. simpl.
    repeat split; intros; try discriminate; auto; congruence.
Qed.

(** ** Concrete runs *)

Lemma mounted_data (id : string) :
  forall h, In h (habits mounted) -> habit_id h = id -> data h <> [].
Proof.
  intros h Hin _. simpl in Hin.
  destruct Hin as [<- | [<- | [<- | [<- | [<- | [<- | []]]]]]]; discriminate.
Defined.

(** The sleep habit of the mounted page, set to 8.5: its [current] and the
    last point of its week become 8.5, the other habits stay. *)
Lemma handleHabitChange_sets_today_witness :
  (forall h, In h (habits mounted) -> habit_id h = "sleep" -> data h <> []) /\
  exists s' log,
    handleHabitChange "sleep" 8.5 mounted = Some (tt, s', log) /\
    List.length (habits s') = List.length (habits mounted) /\
    forall i h, nth_error (habits mounted) i = Some h ->
      exists h', nth_error (habits s') i = Some h' /\
        (habit_id h <> "sleep" -> h' = h) /\
        (habit_id h = "sleep" ->
           current h' = 8.5%Q /\
           habit_id h' = habit_id h /\ name h' = name h /\
           icon h' = icon h /\ habit_unit h' = habit_unit h /\
           color h' = color h /\ goal h' = goal h /\
           exists earlier today,
             data h = earlier ++ [today] /\
             data h' = earlier ++ [mkDataPoint (day today) 8.5]).
Proof.
  split.
  - exact (mounted_data "sleep").
  - exact (handleHabitChange_sets_today mounted "sleep" 8.5 (mounted_data "sleep")).
Defined.

(** Sleep with goal 8 goes from 7 to 8.5: "Goal achieved for Sleep!" is
    shown once. *)
Lemma handleHabitChange_announces_transition_witness :
  JS.find (fun h => (habit_id h =? "sleep")%string) (habits mounted)
    = Some sleepHabit /\
  exists s' log,
    handleHabitChange "sleep" 8.5 mounted = Some (tt, s', log) /\
    (notifications log = [goalAchievedMessage (name sleepHabit)] <->
       ~ Spec.achieved sleepHabit /\ Spec.achievedAt sleepHabit 8.5) /\
    (Spec.achieved sleepHabit -> notifications log = []) /\
    (~ Spec.achievedAt sleepHabit 8.5 -> notifications log = []).
Proof.
  split.
  - reflexivity.
  - exact (handleHabitChange_announces_transition mounted "sleep" 8.5 sleepHabit
             eq_refl (mounted_data "sleep")).
Defined.

Example sleep_goal_achieved_once :
  option_map (fun r => notifications (snd r))
    (handleHabitChange "sleep" 8.5 mounted)
  = Some [goalAchievedMessage "Sleep"].
Proof. vm_compute. reflexivity. Qed.

Lemma wednesday_differs : Spec.dateDiffers monday wednesday.
Proof. right. right. simpl. discriminate. Defined.

(** The last check-in on Monday, the check on Wednesday of the same
    month. *)
Lemma checkNewDay_rollover_witness :
  lastCheckin mounted = Some monday /\
  Spec.dateDiffers monday wednesday /\
  exists s' log,
    checkNewDay wednesday mounted = Some (tt, s', log) /\
    todayComplete s' = false /\
    (1 < Spec.calendarGap monday wednesday \/
     getMonth wednesday <> getMonth monday \/
     getFullYear wednesday <> getFullYear monday ->
       streak s' = 0 /\ notifications log = [streakResetMessage]) /\
    (getFullYear wednesday = getFullYear monday ->
     getMonth wednesday = getMonth monday ->
     getDate wednesday = getDate monday + 2 ->
       todayComplete s' = false /\ streak s' = 0).
Proof.
  split; [reflexivity |]. split; [exact wednesday_differs |].
  exact (checkNewDay_rollover mounted monday wednesday eq_refl wednesday_differs).
Defined.

Example two_days_later_same_month :
  Spec.calendarGap monday wednesday = 2 /\
  option_map (fun r => (todayComplete (snd (fst r)), streak (snd (fst r))))
    (checkNewDay wednesday mounted) = Some (false, 0).
Proof. split; reflexivity. Qed.

Lemma streak_resets_only_on_missed_day_witness :
  reachable mounted /\
  step mounted (NewDayTimer wednesday) afterMissedDay
    [Notify streakResetMessage; ClearNotificationAfter 3000] /\
  (streak afterMissedDay = 0 ->
     streak afterMissedDay = streak mounted \/
     exists now, NewDayTimer wednesday = NewDayTimer now /\
                 missedDayBranch mounted now) /\
  (streak afterMissedDay <> streak mounted ->
     (exists now, NewDayTimer wednesday = CheckIn now /\
                  streak afterMissedDay = streak mounted + 1) \/
     (exists now, NewDayTimer wednesday = NewDayTimer now /\
                  missedDayBranch mounted now /\ streak afterMissedDay = 0)) /\
  (forall now, NewDayTimer wednesday = CheckIn now ->
     streak mounted <= streak afterMissedDay) /\
  (forall id v, NewDayTimer wednesday = HabitChange id v ->
     streak afterMissedDay = streak mounted) /\
  (forall id g, NewDayTimer wednesday = GoalUpdate id g ->
     streak afterMissedDay = streak mounted).
Proof.
  split; [exact (reachable_init monday) |].
  split; [reflexivity |].
  exact (streak_resets_only_on_missed_day mounted (NewDayTimer wednesday)
           afterMissedDay
           [Notify streakResetMessage; ClearNotificationAfter 3000]
           (reachable_init monday) eq_refl).
Defined.

(** Screen time at 4.5 with goal 4 is reminded of; set to 3.5 it is not. *)
Example screen_reminder_comes_and_goes :
  (exists s1, checkMissedHabits mounted = Some (tt, s1, []) /\
     In "Don't forget to limit your screen time goal!" (reminders s1)) /\
  (exists s1 log s2,
     handleHabitChange "screen" 3.5 mounted = Some (tt, s1, log) /\
     checkMissedHabits s1 = Some (tt, s2, []) /\
     ~ In "Don't forget to limit your screen time goal!" (reminders s2)).
Proof.
  split.
  - eexists. split; [reflexivity |]. simpl. tauto.
  - eexists _, _, _. split; [vm_compute; reflexivity |].
    split; [vm_compute; reflexivity |].
    simpl. intros [C | [C | [C | [C | []]]]]; discriminate.
Qed.

(** Lowering the sleep goal from 8 to 6 with 7 hours slept makes the goal
    met, and only "Goal updated for Sleep" is shown. *)
Example goal_update_flips_silently :
  ~ Spec.achieved sleepHabit /\
  Spec.achieved (withGoal 6 sleepHabit) /\
  option_map (fun r => notifications (snd r)) (updateHabitGoal "sleep" 6 mounted)
  = Some ["Goal updated for Sleep"].
Proof.
  split; [| split].
  - intro A. apply completed_iff in A. discriminate.
  - apply completed_iff. reflexivity.
  - reflexivity.
Qed.

(** From 31 October to 1 November the gap is one calendar day, and the
    month differs: the streak is reset. *)
Example month_boundary_resets :
  let last := mkDate 2026 9 31 6 in
  let now := mkDate 2026 10 1 0 in
  Spec.calendarGap last now = 1 /\
  option_map (fun r => streak (snd (fst r)))
    (checkNewDay now (mkState 3 (Some last) true None [] [])) = Some 0.
Proof. split; reflexivity. Qed.

(** A habit with no data point: the update throws. *)
(** Of forty habits 23 are completed: the page shows 57 percent.  The
    quotient 23 / 40 rounds to a double below 0.575 and its product with
    100 to one below 57.5; computed exactly, the tie 57.5 would go up to
    58. *)
Example percentage_of_forty :
  JS.length fortyHabits = 40 /\ completedHabits fortyHabits = 23 /\
  percentage fortyHabits = Some 57 /\
  JS.Math_round (100 * 23 / 40)%Q = 58.
Proof. vm_compute. repeat split. Qed.

Example empty_data_throws :
  handleHabitChange "x" 1
    (mkState 0 None false None [] [mkHabit "x" "X" "" "" "" 1 0 []]) = None.
Proof. reflexivity. Qed.

(** The sleep habit (7 of 8 hours) and the screen habit (4.5 of 4 hours) of
    the mounted page: neither goal is met. *)
Lemma goal_achievement_by_direction_witness :
  habit_id screenHabit = "screen" /\
  habit_id sleepHabit <> "screen" /\
  (completed screenHabit = true <-> (current screenHabit <= goal screenHabit)%Q) /\
  (completed sleepHabit = true <-> (goal sleepHabit <= current sleepHabit)%Q).
Proof.
  assert (N : habit_id sleepHabit <> "screen") by discriminate.
  split; [reflexivity |]. split; [exact N |]. split.
  - exact (proj1 (proj2 (proj1 (goal_achievement_by_direction screenHabit)
                           eq_refl))).
  - exact (proj1 (proj2 (proj2 (goal_achievement_by_direction sleepHabit) N))).
Defined.

(** The first check-in of the mounted page takes the streak from 3 to 4. *)
Lemma handleCheckIn_once_a_day_witness :
  todayComplete mounted = false /\
  exists s' log,
    handleCheckIn monday mounted = Some (tt, s', log) /\
    lastCheckin s' = Some monday /\ todayComplete s' = true /\
    streak s' = streak mounted + 1 /\
    habits s' = habits mounted /\ reminders s' = reminders mounted /\
    notifications log = [checkInMessage].
Proof.
  split; [reflexivity |].
  exact (proj1 (handleCheckIn_once_a_day mounted monday monday) eq_refl).
Defined.

(** One of the six habits of the mounted page meets its goal: 17 percent;
    and a one-habit list going from missed to met goes from 0 to 100. *)
Lemma percentage_rounds_and_grows_witness :
  reachable mounted /\
  List.length (habits mounted) = 6%nat /\
  habits mounted <> [] /\ (List.length (habits mounted) < 40)%nat /\
  (exists p,
     percentage (habits mounted) = Some p /\
     completedHabits (habits mounted)
       = Z.of_nat (List.length (List.filter completed (habits mounted))) /\
     (forall h, completed h = true <-> Spec.achieved h) /\
     let x := (100 * inject_Z (completedHabits (habits mounted))
               / inject_Z (Z.of_nat (List.length (habits mounted))))%Q in
     (x - (1 # 2) < inject_Z p)%Q /\ (inject_Z p <= x + (1 # 2))%Q) /\
  ~ Spec.achieved sleepHabit /\
  Spec.achieved (withGoal 6 sleepHabit) /\
  exists p p',
    percentage ([] ++ sleepHabit :: []) = Some p /\
    percentage ([] ++ withGoal 6 sleepHabit :: []) = Some p' /\
    p <= p'.
Proof.
  assert (R : reachable mounted) by constructor.
  assert (N : ~ Spec.achieved sleepHabit).
  { intro A. apply completed_iff in A. discriminate. }
  assert (A : Spec.achieved (withGoal 6 sleepHabit)).
  { apply completed_iff. reflexivity. }
  split; [exact R |].
  assert (Ne : habits mounted <> []) by discriminate.
  assert (Few : (List.length (habits mounted) < 40)%nat) by (simpl; lia).
  split; [exact (proj1 percentage_rounds_and_grows mounted R) |].
  split; [exact Ne |]. split; [exact Few |].
  split; [exact (proj1 (proj2 percentage_rounds_and_grows) (habits mounted)
                   Ne Few) |].
  split; [exact N |]. split; [exact A |].
  exact (proj2 (proj2 percentage_rounds_and_grows) [] [] sleepHabit
           (withGoal 6 sleepHabit) N A).
Defined.


(** The goal of sleep lowered to 6 shows "Goal updated for Sleep" only; the
    slider moved to 8.5 is the event that shows "Goal achieved for
    Sleep!". *)
Lemma goal_update_never_announces_achievement_witness :
  JS.find (fun h => (habit_id h =? "sleep")%string) (habits mounted)
    = Some sleepHabit /\
  (exists s' log,
     updateHabitGoal "sleep" 6 mounted = Some (tt, s', log) /\
     notifications log = [goalUpdatedMessage (Some (name sleepHabit))] /\
     forall n, ~ In (goalAchievedMessage n) (notifications log)) /\
  step mounted (HabitChange "sleep" 8.5) afterSleep
    [Notify (goalAchievedMessage "Sleep"); ClearNotificationAfter 3000] /\
  In (goalAchievedMessage "Sleep")
    (notifications
       [Notify (goalAchievedMessage "Sleep"); ClearNotificationAfter 3000]) /\
  exists id v, HabitChange "sleep" 8.5 = HabitChange id v.
Proof.
  assert (S : step mounted (HabitChange "sleep" 8.5) afterSleep
                [Notify (goalAchievedMessage "Sleep");
                 ClearNotificationAfter 3000]).
  { vm_compute. reflexivity. }
  assert (I : In (goalAchievedMessage "Sleep")
                (notifications
                   [Notify (goalAchievedMessage "Sleep");
                    ClearNotificationAfter 3000])).
  { left. reflexivity. }
  split; [reflexivity |].
  split.
  { exact (proj1 goal_update_never_announces_achievement mounted "sleep" 6%Q
             sleepHabit eq_refl). }
  split; [exact S |]. split; [exact I |].
  exact (proj2 goal_update_never_announces_achievement mounted
           (HabitChange "sleep" 8.5%Q) afterSleep _ "Sleep" S I).
Defined.

(** * Further properties of the page *)

(** ** Shape of the reachable states *)

Lemma withValue_metadata (v : Q) (h h' : HabitData) :
  withValue v h = Some h' -> metadata h' = metadata h /\ goal h' = goal h.
Proof.
  unfold withValue. destruct (JS.get _ _); [| discriminate].
  intro E. injection E as <-. split; reflexivity.
Qed.

Lemma mapThrow_habits_metadata (id : string) (v : Q) (hs hs' : list HabitData) :
  JS.mapThrow (fun habit => if (habit_id habit =? id)%string
                            then withValue v habit else Some habit) hs
    = Some hs' ->
  List.map metadata hs' = List.map metadata hs /\
  List.map goal hs' = List.map goal hs.
Proof.
  revert hs'. induction hs as [| h hs IH]; intros hs' H; simpl in H.
  - injection H as <-. split; reflexivity.
  - destruct (if (habit_id h =? id)%string then withValue v h else Some h)
      as [h' |] eqn:Fh; [| discriminate].
    destruct (JS.mapThrow _ hs) as [r |]; [| discriminate].
    injection H as <-. destruct (IH r eq_refl) as [Ms Gs].
    assert (S : metadata h' = metadata h /\ goal h' = goal h).
    { destruct (habit_id h =? id)%string.
      - now apply withValue_metadata in Fh.
      - injection Fh as <-. split; reflexivity. }
    destruct S as [Sm Sg]. simpl. split; congruence.
Qed.

Lemma step_metadata (s : AppState) (e : Event) (s' : AppState)
      (log : list Effect) :
  step s e s' log ->
  List.map metadata (habits s') = List.map metadata (habits s).
Proof.
  unfold step. intro Hstep.
  destruct e as [id v | id g | now | now | |]; simpl in Hstep.
  - destruct (handleHabitChange_inv _ _ _ _ _ Hstep) as (Map & _).
    now destruct (mapThrow_habits_metadata _ _ _ _ Map).
  - rewrite updateHabitGoal_run in Hstep. cbv zeta in Hstep.
    injection Hstep as <- _. simpl. rewrite map_map.
    apply map_ext. intro h. destruct (habit_id h =? id)%string; reflexivity.
  - rewrite handleCheckIn_run in Hstep.
    destruct (todayComplete s); injection Hstep as <- _; reflexivity.
  - rewrite checkNewDay_run in Hstep.
    destruct (lastCheckin s) as [last |];
      [destruct (isNewDay now last); [destruct (missedDay now last) |] |];
      injection Hstep as <- _; reflexivity.
  - rewrite checkMissedHabits_run in Hstep. injection Hstep as <- _. reflexivity.
  - unfold clearNotification in Hstep. injection Hstep as <- _. reflexivity.
Qed.

Lemma step_checked_in (s : AppState) (e : Event) (s' : AppState)
      (log : list Effect) :
  step s e s' log ->
  (todayComplete s = true -> lastCheckin s <> None) ->
  todayComplete s' = true -> lastCheckin s' <> None.
Proof.
  unfold step. intros Hstep I.
  destruct e as [id v | id g | now | now | |]; simpl in Hstep.
  - destruct (handleHabitChange_inv _ _ _ _ _ Hstep) as (_ & _ & -> & -> & _).
    exact I.
  - rewrite updateHabitGoal_run in Hstep. cbv zeta in Hstep.
    injection Hstep as <- _. exact I.
  - rewrite handleCheckIn_run in Hstep.
    destruct (todayComplete s) eqn:T; injection Hstep as <- _; simpl;
      [intros _; apply I; reflexivity | discriminate].
  - rewrite checkNewDay_run in Hstep.
    destruct (lastCheckin s) as [last |] eqn:L;
      [destruct (isNewDay now last); [destruct (missedDay now last) |] |];
      injection Hstep as <- _; simpl; rewrite ?L; try exact I;
      intro C; discriminate C.
  - rewrite checkMissedHabits_run in Hstep. injection Hstep as <- _. exact I.
  - unfold clearNotification in Hstep. injection Hstep as <- _. exact I.
Qed.

(** X1. In every state the page reaches the streak is not negative, the
    habits are the six of the page in their order, each with seven data
    points and with the name, icon, unit and colour it was created with,
    and a completed day has a recorded check-in time. *)
Theorem reachable_state_shape (s : AppState) (Hreach : reachable s) :
  0 <= streak s /\
  List.map habit_id (habits s) = habitIds /\
  Forall (fun h => List.length (data h) = 7%nat) (habits s) /\
  List.map metadata (habits s) = List.map metadata (initialHabits []) /\
  (todayComplete s = true -> lastCheckin s <> None).
Proof.
  destruct (reachable_invariant s Hreach) as (St & Ids & Lens).
  split; [exact St |]. split; [exact Ids |].
  split.
  { apply Forall_forall. intros h Hin.
    assert (L : In (List.length (data h))
                   (List.map (fun h => List.length (data h)) (habits s))).
    { apply (in_map (fun h => List.length (data h))). exact Hin. }
    rewrite Lens in L. simpl in L. intuition congruence. }
  induction Hreach as [today | s e s' log R IH Hstep].
  - split; [reflexivity | discriminate].
  - destruct (IH (proj1 (reachable_invariant s R))
                 (proj1 (proj2 (reachable_invariant s R)))
                 (proj2 (proj2 (reachable_invariant s R)))) as [M C].
    split.
    + rewrite (step_metadata s e s' log Hstep). exact M.
    + exact (step_checked_in s e s' log Hstep C).
Qed.

(** X2. No event throws in a reachable state: every handler and timer
    callback returns a next state. *)
Theorem reachable_never_throws (s : AppState) (e : Event)
    (Hreach : reachable s) :
  exists s' log, step s e s' log /\ reachable s'.
Proof.
  assert (T : exists s' log, step s e s' log).
  { unfold step. destruct e as [id v | id g | now | now | |]; simpl.
    - exact (reachable_handleHabitChange_returns s id v Hreach).
    - rewrite updateHabitGoal_run. eauto.
    - rewrite handleCheckIn_run. destruct (todayComplete s); eauto.
    - rewrite checkNewDay_run.
      destruct (lastCheckin s) as [last |];
        [destruct (isNewDay now last); [destruct (missedDay now last) |] |];
        eauto.
    - rewrite checkMissedHabits_run. eauto.
    - unfold clearNotification. eauto. }
  destruct T as (s' & log & Hstep).
  exists s', log. split; [exact Hstep |].
  exact (reachable_step s e s' log Hreach Hstep).
Qed.

(** ** The goal update on the habit list *)

(** X3. The goal update never throws; it sets the goal of every habit with
    the given id and leaves that habit's current value, data points and
    display fields, every other habit, the streak, the check-in state and
    the reminders as they were. *)
Theorem updateHabitGoal_sets_goal_only (s : AppState) (id : string) (g : Q) :
  exists s' log,
    updateHabitGoal id g s = Some (tt, s', log) /\
    streak s' = streak s /\ lastCheckin s' = lastCheckin s /\
    todayComplete s' = todayComplete s /\ reminders s' = reminders s /\
    List.length (habits s') = List.length (habits s) /\
    forall i h, nth_error (habits s) i = Some h ->
      exists h', nth_error (habits s') i = Some h' /\
        (habit_id h <> id -> h' = h) /\
        (habit_id h = id ->
           goal h' = g /\ current h' = current h /\ data h' = data h /\
           metadata h' = metadata h).
Proof.
  rewrite updateHabitGoal_run. cbv zeta. eexists _, _.
  split; [reflexivity |]. simpl.
  repeat (split; [reflexivity |]).
  split; [apply length_map |].
  intros i h Hi.
  exists (if (habit_id h =? id)%string then withGoal g h else h).
  split.
  - rewrite nth_error_map, Hi. reflexivity.
  - destruct (String.eqb_spec (habit_id h) id) as [E | E].
    + split; [intro C; contradiction |]. intros _. repeat split.
    + split; [reflexivity | intro C; contradiction].
Qed.

(** ** Repeated and interleaved updates *)

Lemma withValue_twice (v1 v2 : Q) (h h1 : HabitData) :
  withValue v1 h = Some h1 ->
  withValue v2 h1 = withValue v2 h /\ habit_id h1 = habit_id h.
Proof.
  intro W. destruct (data h) as [| d l] eqn:D.
  - apply (proj2 (withValue_throws v1 h)) in D. congruence.
  - destruct (@exists_last _ (d :: l)) as (earlier & today & E); [discriminate |].
    rewrite E in D. rewrite (withValue_last v1 h earlier today D) in W.
    injection W as <-. split; [| reflexivity].
    rewrite (withValue_last v2 h earlier today D).
    erewrite withValue_last by (simpl; reflexivity). reflexivity.
Qed.

Lemma mapThrow_update_twice (id : string) (v1 v2 : Q)
      (hs hs1 : list HabitData) :
  JS.mapThrow (fun habit => if (habit_id habit =? id)%string
                            then withValue v1 habit else Some habit) hs
    = Some hs1 ->
  JS.mapThrow (fun habit => if (habit_id habit =? id)%string
                            then withValue v2 habit else Some habit) hs1
  = JS.mapThrow (fun habit => if (habit_id habit =? id)%string
                              then withValue v2 habit else Some habit) hs.
Proof.
  revert hs1. induction hs as [| h hs IH]; intros hs1 H; simpl in H.
  - injection H as <-. reflexivity.
  - destruct (habit_id h =? id)%string eqn:Eid.
    + destruct (withValue v1 h) as [h1 |] eqn:W; [| discriminate].
      destruct (JS.mapThrow _ hs) as [r |]; [| discriminate].
      injection H as <-. simpl.
      destruct (withValue_twice v1 v2 h h1 W) as [W2 Id].
      rewrite Id, Eid, W2, (IH r eq_refl). reflexivity.
    + destruct (JS.mapThrow _ hs) as [r |]; [| discriminate].
      injection H as <-. simpl. rewrite Eid, (IH r eq_refl). reflexivity.
Qed.

Lemma withValue_again (v : Q) (h h1 : HabitData) :
  withValue v h = Some h1 -> withValue v h1 = Some h1 /\ current h1 = v.
Proof.
  intro W. destruct (withValue_twice v v h h1 W) as [W2 _].
  split; [congruence |].
  unfold withValue in W. destruct (JS.get _ _); [| discriminate].
  injection W as <-. reflexivity.
Qed.

Lemma mapThrow_update_again (id : string) (v : Q) (hs hs1 : list HabitData) :
  JS.mapThrow (fun habit => if (habit_id habit =? id)%string
                            then withValue v habit else Some habit) hs
    = Some hs1 ->
  forall h1, In h1 hs1 -> habit_id h1 = id ->
    withValue v h1 = Some h1 /\ current h1 = v.
Proof.
  revert hs1. induction hs as [| h hs IH]; intros hs1 H; simpl in H.
  - injection H as <-. intros h1 [].
  - destruct (if (habit_id h =? id)%string then withValue v h else Some h)
      as [h' |] eqn:Fh; [| discriminate].
    destruct (JS.mapThrow _ hs) as [r |]; [| discriminate].
    injection H as <-. intros h1 [<- | Hin] Hid; [| exact (IH r eq_refl h1 Hin Hid)].
    destruct (String.eqb_spec (habit_id h) id) as [E | E].
    + exact (withValue_again v h h' Fh).
    + injection Fh as <-. contradiction.
Qed.

Lemma find_some_in (id : string) (hs : list HabitData) (h : HabitData) :
  JS.find (fun h => (habit_id h =? id)%string) hs = Some h ->
  In h hs /\ habit_id h = id.
Proof.
  intro F. apply find_some in F. destruct F as [Hin E].
  split; [exact Hin | now apply String.eqb_eq].
Qed.

(** X4. Of two value updates of the same habit the later one decides the
    habit list; and repeating an update with the same value changes no
    state and shows nothing. *)
Theorem handleHabitChange_last_write_wins
    (s s1 s2 : AppState) (id : string) (v1 v2 : Q) (l1 l2 : list Effect)
    (H1 : handleHabitChange id v1 s = Some (tt, s1, l1))
    (H2 : handleHabitChange id v2 s1 = Some (tt, s2, l2)) :
  (exists s2' l2',
     handleHabitChange id v2 s = Some (tt, s2', l2') /\
     habits s2' = habits s2) /\
  handleHabitChange id v1 s1 = Some (tt, s1, []).
Proof.
  destruct (handleHabitChange_inv _ _ _ _ _ H1) as (M1 & _).
  destruct (handleHabitChange_inv _ _ _ _ _ H2) as (M2 & _).
  split.
  - rewrite (mapThrow_update_twice id v1 v2 _ _ M1) in M2.
    rewrite handleHabitChange_run. cbv zeta. rewrite M2.
    eexists _, _. split; reflexivity.
  - pose proof (mapThrow_update_again id v1 _ _ M1) as Again.
    rewrite handleHabitChange_run. cbv zeta.
    rewrite mapThrow_id.
    + destruct (JS.find _ (habits s1)) as [h1 |] eqn:F.
      * destruct (find_some_in id _ _ F) as [Hin Hid].
        destruct (Again h1 Hin Hid) as [_ ->].
        destruct (goalMetAt h1 v1); simpl; destruct s1; reflexivity.
      * destruct s1; reflexivity.
    + intros h Hin. destruct (String.eqb_spec (habit_id h) id) as [E | E];
        [| reflexivity].
      exact (proj1 (Again h Hin E)).
Qed.

Lemma withValue_withGoal (v g : Q) (h : HabitData) :
  withValue v (withGoal g h) = option_map (withGoal g) (withValue v h).
Proof.
  unfold withValue. simpl. destruct (JS.get _ _); reflexivity.
Qed.

Lemma mapThrow_update_goal (id id' : string) (v g : Q) (hs : list HabitData) :
  JS.mapThrow (fun habit => if (habit_id habit =? id)%string
                            then withValue v habit else Some habit)
    (List.map (fun habit => if (habit_id habit =? id')%string
                            then withGoal g habit else habit) hs)
  = option_map
      (List.map (fun habit => if (habit_id habit =? id')%string
                              then withGoal g habit else habit))
      (JS.mapThrow (fun habit => if (habit_id habit =? id)%string
                                 then withValue v habit else Some habit) hs).
Proof.
  induction hs as [| h hs IH]; simpl; [reflexivity |].
  rewrite IH. clear IH.
  assert (Id : forall b : bool,
             habit_id (if b then withGoal g h else h) = habit_id h).
  { intros []; reflexivity. }
  rewrite Id.
  destruct (habit_id h =? id)%string eqn:Eid.
  - destruct (habit_id h =? id')%string eqn:Eid'.
    + rewrite withValue_withGoal.
      destruct (withValue v h) as [h1 |] eqn:W; simpl; [| reflexivity].
      assert (E1 : habit_id h1 = habit_id h).
      { now destruct (withValue_twice v v h h1 W). }
      destruct (JS.mapThrow _ hs); simpl; [| reflexivity].
      rewrite E1, Eid'. reflexivity.
    + destruct (withValue v h) as [h1 |] eqn:W; simpl; [| reflexivity].
      assert (E1 : habit_id h1 = habit_id h).
      { now destruct (withValue_twice v v h h1 W). }
      destruct (JS.mapThrow _ hs); simpl; [| reflexivity].
      rewrite E1, Eid'. reflexivity.
  - destruct (JS.mapThrow _ hs); simpl; reflexivity.
Qed.

(** X5. A value update and a goal update commute on the state: done in
    either order they give the same habit list, streak, check-in state and
    reminders (what they announce may differ). *)
Theorem value_and_goal_updates_commute
    (s s1 : AppState) (id id' : string) (v g : Q) (l1 : list Effect)
    (H1 : handleHabitChange id v s = Some (tt, s1, l1)) :
  exists sa la sb lb sc lc,
    updateHabitGoal id' g s1 = Some (tt, sa, la) /\
    updateHabitGoal id' g s = Some (tt, sb, lb) /\
    handleHabitChange id v sb = Some (tt, sc, lc) /\
    habits sa = habits sc /\ streak sa = streak sc /\
    lastCheckin sa = lastCheckin sc /\ todayComplete sa = todayComplete sc /\
    reminders sa = reminders sc.
Proof.
  destruct (handleHabitChange_inv _ _ _ _ _ H1) as (M1 & St & Lc & Tc & Rm).
  rewrite !updateHabitGoal_run. cbv zeta.
  eexists _, _, _, _, _, _.
  split; [reflexivity |]. split; [reflexivity |].
  split.
  { rewrite handleHabitChange_run. cbv zeta. cbn [habits].
    rewrite mapThrow_update_goal, M1. simpl. reflexivity. }
  simpl. auto.
Qed.

(** ** Notifications and their timers *)

(** X6. An event shows at most one notification; when it shows one, the
    notification slot holds it and the 3000 ms clear timer is armed right
    after; when it shows none, the slot keeps its content, except that the
    timer firing empties it. *)
Theorem every_notification_arms_its_timer
    (s : AppState) (e : Event) (s' : AppState) (log : list Effect)
    (Hstep : step s e s' log) :
  (log = [] /\
   notification s' =
     match e with NotificationTimeout => None | _ => notification s end) \/
  (exists m,
     log = [Notify m; ClearNotificationAfter 3000] /\
     notification s' = Some m).
Proof.
  unfold step in Hstep.
  destruct e as [id v | id g | now | now | |]; simpl in Hstep.
  - rewrite handleHabitChange_run in Hstep. cbv zeta in Hstep.
    destruct (JS.mapThrow _ (habits s)); [| discriminate].
    destruct (JS.find _ (habits s)) as [h |];
      [destruct (goalMetAt h v && negb (goalMetAt h (current h))) |];
      injection Hstep as <- <-; simpl; eauto.
  - rewrite updateHabitGoal_run in Hstep. cbv zeta in Hstep.
    injection Hstep as <- <-. simpl. eauto.
  - rewrite handleCheckIn_run in Hstep.
    destruct (todayComplete s); injection Hstep as <- <-; simpl; eauto.
  - rewrite checkNewDay_run in Hstep.
    destruct (lastCheckin s) as [last |];
      [destruct (isNewDay now last); [destruct (missedDay now last) |] |];
      injection Hstep as <- <-; simpl; eauto.
  - rewrite checkMissedHabits_run in Hstep.
    injection Hstep as <- <-. simpl. eauto.
  - unfold clearNotification in Hstep.
    injection Hstep as <- <-. simpl. eauto.
Qed.

(** X12. Which event writes which cell: the reminders are written by the
    missed-habit check only, the habit list by the value and goal updates
    only, [lastCheckin] by the check-in only, and [todayComplete] becomes
    true by the check-in only. *)
Theorem each_cell_has_its_writers
    (s : AppState) (e : Event) (s' : AppState) (log : list Effect)
    (Hstep : step s e s' log) :
  (reminders s' <> reminders s -> e = MissedHabitsTimer) /\
  (habits s' <> habits s ->
     (exists id v, e = HabitChange id v) \/ (exists id g, e = GoalUpdate id g)) /\
  (lastCheckin s' <> lastCheckin s ->
     exists now, e = CheckIn now /\ lastCheckin s' = Some now) /\
  (todayComplete s = false -> todayComplete s' = true ->
     exists now, e = CheckIn now).
Proof.
  unfold step in Hstep.
  destruct e as [id v | id g | now | now | |]; simpl in Hstep.
  - destruct (handleHabitChange_inv _ _ _ _ _ Hstep) as (_ & _ & L & T & R).
    repeat split; intros; try congruence; eauto.
  - rewrite updateHabitGoal_run in Hstep. cbv zeta in Hstep.
    injection Hstep as <- _. simpl.
    repeat split; intros; try congruence; eauto.
  - rewrite handleCheckIn_run in Hstep.
    destruct (todayComplete s); injection Hstep as <- _; simpl;
      repeat split; intros; try congruence; eauto.
  - rewrite checkNewDay_run in Hstep.
    destruct (lastCheckin s) as [last |] eqn:L;
      [destruct (isNewDay now last); [destruct (missedDay now last) |] |];
      injection Hstep as <- _; simpl;
      repeat split; intros; try congruence; eauto.
  - rewrite checkMissedHabits_run in Hstep.
    injection Hstep as <- _. simpl.
    repeat split; intros; try congruence; eauto.
  - unfold clearNotification in Hstep.
    injection Hstep as <- _. simpl.
    repeat split; intros; try congruence; eauto.
Qed.

(** ** More on the day rollover *)

Lemma isNewDay_same (d : Date) : isNewDay d d = false.
Proof. unfold isNewDay. rewrite !Z.eqb_refl. reflexivity. Qed.

(** X7. The day-rollover check does nothing without a recorded check-in
    or on the date of the last check-in; and when the year and the month
    are those of the last check-in and the day of the month is another one
    that is not more than one ahead, it only clears [todayComplete]: the
    streak stays and nothing is shown. *)
Theorem checkNewDay_keeps_streak (s : AppState) (now : Date) :
  (lastCheckin s = None -> checkNewDay now s = Some (tt, s, [])) /\
  (forall last, lastCheckin s = Some last -> ~ Spec.dateDiffers last now ->
     checkNewDay now s = Some (tt, s, [])) /\
  (forall last, lastCheckin s = Some last ->
     getFullYear now = getFullYear last -> getMonth now = getMonth last ->
     getDate now <> getDate last -> getDate now - getDate last <= 1 ->
     checkNewDay now s =
       Some (tt,
             mkState (streak s) (lastCheckin s) false (notification s)
               (reminders s) (habits s),
             [])).
Proof.
  rewrite checkNewDay_run. split; [| split].
  - intros ->. reflexivity.
  - intros last -> N.
    destruct (isNewDay now last) eqn:Nd; [| reflexivity].
    apply isNewDay_iff in Nd. contradiction.
  - intros last L Y Mo D G. rewrite L.
    assert (Nd : isNewDay now last = true).
    { apply isNewDay_iff. right. right. exact D. }
    rewrite Nd.
    destruct (missedDay now last) eqn:Md; [| rewrite <- L; reflexivity].
    apply missedDay_iff in Md. exfalso.
    destruct Md as [C | [C | C]]; [lia | contradiction | contradiction].
Qed.

(** X8. The day-rollover check never writes [lastCheckin]; so running it
    again at the same time gives the same state and the same effects: a
    missed-day notification is shown again at every check until the next
    check-in. *)
Theorem checkNewDay_repeats
    (s s1 : AppState) (now : Date) (l1 : list Effect)
    (Hrun : checkNewDay now s = Some (tt, s1, l1)) :
  checkNewDay now s1 = Some (tt, s1, l1) /\
  lastCheckin s1 = lastCheckin s /\ habits s1 = habits s /\
  reminders s1 = reminders s.
Proof.
  rewrite checkNewDay_run in Hrun. rewrite checkNewDay_run.
  destruct (lastCheckin s) as [last |] eqn:L.
  - destruct (isNewDay now last) eqn:Nd.
    + destruct (missedDay now last) eqn:Md;
        injection Hrun as <- <-; simpl; rewrite Nd, Md; auto.
    + injection Hrun as <- <-. rewrite L, Nd. auto.
  - injection Hrun as <- <-. rewrite L. auto.
Qed.

(** X9. After the rollover to another date the check-in is open again: it
    takes the streak to 1 after a missed day and one up otherwise, records
    its time, and a rollover check at that time then does nothing. *)
Theorem check_in_after_rollover
    (s : AppState) (last now now' : Date)
    (Hlast : lastCheckin s = Some last)
    (Hdiff : Spec.dateDiffers last now) :
  exists s1 l1 s2 l2,
    checkNewDay now s = Some (tt, s1, l1) /\
    handleCheckIn now' s1 = Some (tt, s2, l2) /\
    streak s2 = (if missedDay now last then 1 else streak s + 1) /\
    todayComplete s2 = true /\ lastCheckin s2 = Some now' /\
    notifications l2 = [checkInMessage] /\
    checkNewDay now' s2 = Some (tt, s2, []).
Proof.
  apply isNewDay_iff in Hdiff.
  rewrite checkNewDay_run, Hlast, Hdiff.
  destruct (missedDay now last);
    eexists _, _, _, _; (split; [reflexivity |]);
    rewrite handleCheckIn_run; simpl; (split; [reflexivity |]);
    simpl; repeat (split; [reflexivity |]);
    rewrite checkNewDay_run; simpl; rewrite isNewDay_same; reflexivity.
Qed.

(** ** Reminders against the completed count *)

Lemma filter_missed_completed (hs : list HabitData) :
  (List.length (List.filter missed hs)
   + List.length (List.filter completed hs) = List.length hs)%nat.
Proof.
  induction hs as [| h hs IH]; simpl; [reflexivity |].
  rewrite missed_negb_completed.
  destruct (completed h); simpl; lia.
Qed.

(** X10. Every habit is either counted as completed or reminded of: after
    the missed-habit check the number of reminders and the completed count
    of the progress card add up to the number of habits. *)
Theorem reminders_complement_completed (s : AppState) :
  exists s',
    checkMissedHabits s = Some (tt, s', []) /\
    JS.length (reminders s') + completedHabits (habits s)
      = JS.length (habits s).
Proof.
  eexists. split; [apply checkMissedHabits_run |]. simpl.
  unfold completedHabits, JS.length. rewrite length_map.
  pose proof (filter_missed_completed (habits s)). lia.
Qed.

(** ** Range of the percentage *)

Lemma ratio_below (k n c : Z) (d : positive) :
  0 < n -> k * Z.pos d <= c * n -> (inject_Z k / inject_Z n <= c # d)%Q.
Proof.
  intros Hn H. apply Qle_shift_div_r.
  - change 0%Q with (inject_Z 0). rewrite <- Zlt_Qlt. exact Hn.
  - unfold Qle. cbn [Qnum Qden Qmult inject_Z]. rewrite Pos.mul_1_r. lia.
Qed.

Lemma ratio_above (k n c : Z) (d : positive) :
  0 < n -> c * n <= k * Z.pos d -> (c # d <= inject_Z k / inject_Z n)%Q.
Proof.
  intros Hn H. apply Qle_shift_div_l.
  - change 0%Q with (inject_Z 0). rewrite <- Zlt_Qlt. exact Hn.
  - unfold Qle. cbn [Qnum Qden Qmult inject_Z]. rewrite Pos.mul_1_r. lia.
Qed.

(** [Math.round((k / n) * 100)] for [0 <= k <= n]: between 0 and 100,
    and with [n] below 200 at an end only when [k] is. *)
(** Evaluates the percentage of the constant quotient [c] in [H]. *)
Ltac percent_at c H :=
  let v := eval vm_compute in
             (JS.Math_round (Double.mul (Double.round c) 100)) in
  change (JS.Math_round (Double.mul (Double.round c) 100)) with v in H.

Lemma percent_range (k n : Z) :
  0 < n -> 0 <= k <= n ->
  let p :=
    JS.Math_round (Double.mul (Double.div (inject_Z k) (inject_Z n)) 100) in
  0 <= p <= 100 /\
  (n < 200 -> (p = 100 <-> k = n) /\ (p = 0 <-> k = 0)).
Proof.
  intros Hn Hk. cbv zeta. unfold Double.div.
  set (q := (inject_Z k / inject_Z n)%Q).
  assert (Q0 : (0 <= q)%Q) by (apply (ratio_above k n 0 1); lia).
  assert (Q1 : (q <= 1)%Q) by (apply (ratio_below k n 1 1); lia).
  pose proof (percent_le 0 q (Qle_refl 0) Q0) as L0.
  pose proof (percent_le q 1 Q0 Q1) as L1.
  percent_at (0)%Q L0.
  percent_at (1)%Q L1.
  split; [lia |]. intro Small. split; split.
  - intro E. destruct (Z.eq_dec k n) as [Ekn | Nkn]; [exact Ekn | exfalso].
    assert (Q2 : (q <= 198 # 199)%Q) by (apply (ratio_below k n 198 199); lia).
    pose proof (percent_le q (198 # 199) Q0 Q2) as L2.
    percent_at (198 # 199)%Q L2.
    lia.
  - intros ->.
    assert (Q2 : (1 <= q)%Q) by (apply (ratio_above n n 1 1); lia).
    pose proof (percent_le 1 q ltac:(discriminate) Q2) as L2.
    percent_at (1)%Q L2.
    lia.
  - intro E. destruct (Z.eq_dec k 0) as [Ek0 | Nk0]; [exact Ek0 | exfalso].
    assert (Q2 : (1 # 199 <= q)%Q) by (apply (ratio_above k n 1 199); lia).
    pose proof (percent_le (1 # 199) q ltac:(discriminate) Q2) as L2.
    percent_at (1 # 199)%Q L2.
    lia.
  - intros ->.
    assert (Q2 : (q <= 0)%Q) by (apply (ratio_below 0 n 0 1); lia).
    pose proof (percent_le q 0 Q0 Q2) as L2.
    percent_at (0)%Q L2.
    lia.
Qed.

Lemma filter_all_iff {A : Type} (p : A -> bool) (l : list A) :
  List.length (List.filter p l) = List.length l <->
  forall a, In a l -> p a = true.
Proof.
  induction l as [| x l IH]; simpl.
  - split; [intros _ a [] | reflexivity].
  - pose proof (filter_length_le p l) as B.
    destruct (p x) eqn:Px; simpl.
    + split.
      * intros E a [<- | Ha]; [exact Px |]. apply IH; [lia | exact Ha].
      * intro H. f_equal. apply IH. intros a Ha. apply H. now right.
    + split; [lia |]. intro H. specialize (H x (or_introl eq_refl)). congruence.
Qed.

(** X11. With no habit the progress percentage is not a number.  With at
    least one it lies between 0 and 100; and with fewer than 200 habits it
    is 100 exactly when every habit is completed and 0 exactly when none
    is. *)
Theorem percentage_range :
  percentage [] = None /\
  forall hs : list HabitData, hs <> [] ->
    exists p,
      percentage hs = Some p /\ 0 <= p <= 100 /\
      ((List.length hs < 200)%nat ->
         (p = 100 <-> forall h, In h hs -> completed h = true) /\
         (p = 0 <-> forall h, In h hs -> completed h = false)).
Proof.
  split; [reflexivity |].
  intros hs Hne. rewrite (percentage_run hs Hne).
  assert (Hn : 0 < JS.length hs).
  { unfold JS.length. destruct hs; [congruence | simpl; lia]. }
  destruct (percent_range _ _ Hn (completedHabits_bounds hs)) as [R E].
  eexists. split; [reflexivity |]. split; [exact R |].
  intro Small.
  destruct E as [E100 E0]; [unfold JS.length; lia |].
  split.
  - rewrite E100, <- filter_all_iff. unfold completedHabits, JS.length. lia.
  - rewrite E0, <- filter_nil_iff. unfold completedHabits, JS.length.
    destruct (List.filter completed hs); simpl; split; intro H;
      try reflexivity; try discriminate; lia.
Qed.

(** ** The streak card *)

Lemma nextMilestone_quotient (streak : Z) :
  nextMilestone streak = - ((- streak) / 5) * 5.
Proof.
  unfold nextMilestone, Qceiling. f_equal. f_equal.
  rewrite Zdiv_Qdiv. apply Qfloor_comp.
  rewrite inject_Z_opp. change (inject_Z 5) with 5%Q. field.
Qed.

(** X13. For a streak that is not negative the milestone bar is at
    0, 20, 40, 60 or 80 percent and never full; "Next" is the least
    multiple of 5 that is at least the streak; on a multiple of 5 the bar
    is empty and "Next" is the streak itself, otherwise the bar misses 100
    by 20 for each day left to "Next". *)
Theorem milestone_bar_and_next (streak : Z) (Hstreak : 0 <= streak) :
  0 <= milestoneProgress streak <= 80 /\
  milestoneProgress streak = streak mod 5 * 20 /\
  nextMilestone streak mod 5 = 0 /\
  streak <= nextMilestone streak < streak + 5 /\
  (streak mod 5 = 0 ->
     milestoneProgress streak = 0 /\ nextMilestone streak = streak) /\
  (streak mod 5 <> 0 ->
     milestoneProgress streak + 20 * (nextMilestone streak - streak) = 100).
Proof.
  rewrite nextMilestone_quotient. unfold milestoneProgress.
  rewrite (Z.rem_mod_nonneg streak 5) by lia.
  pose proof (Z.div_mod streak 5 ltac:(lia)) as D1.
  pose proof (Z.mod_pos_bound streak 5 ltac:(lia)) as B1.
  pose proof (Z.div_mod (- streak) 5 ltac:(lia)) as D2.
  pose proof (Z.mod_pos_bound (- streak) 5 ltac:(lia)) as B2.
  rewrite Z.mod_mul by lia.
  repeat split; intros; lia.
Qed.

(** ** The sliders *)




(** ** The weekly statistics of a habit panel *)

Lemma fold_max_from (xs : list Q) (m0 : Q) :
  exists hi,
    fold_left (fun m x => Num.max m (Num.Fin x)) xs (Num.Fin m0) = Num.Fin hi /\
    (m0 <= hi)%Q /\ (forall x, In x xs -> (x <= hi)%Q) /\
    (hi = m0 \/ In hi xs).
Proof.
  revert m0. induction xs as [| x xs IH]; intro m0; cbn [fold_left].
  - exists m0. split; [reflexivity |]. split; [apply Qle_refl |].
    split; [intros x [] | now left].
  - change (Num.max (Num.Fin m0) (Num.Fin x))
      with (if Qle_bool m0 x then Num.Fin x else Num.Fin m0).
    destruct (Qle_bool m0 x) eqn:L.
    + apply Qle_bool_iff in L.
      destruct (IH x) as (hi & F & B & A & W).
      exists hi. split; [exact F |].
      split; [exact (Qle_trans _ _ _ L B) |].
      split; [intros y [<- | Hy]; auto |].
      destruct W as [-> | W]; [right; now left | right; now right].
    + assert (X : (x <= m0)%Q).
      { destruct (Qlt_le_dec m0 x) as [C | C]; [| exact C].
        apply Qlt_le_weak, Qle_bool_iff in C. congruence. }
      destruct (IH m0) as (hi & F & B & A & W).
      exists hi. split; [exact F |]. split; [exact B |].
      split; [intros y [<- | Hy]; [exact (Qle_trans _ _ _ X B) | auto] |].
      destruct W as [-> | W]; [now left | right; now right].
Qed.

Lemma fold_min_from (xs : list Q) (m0 : Q) :
  exists lo,
    fold_left (fun m x => Num.min m (Num.Fin x)) xs (Num.Fin m0) = Num.Fin lo /\
    (lo <= m0)%Q /\ (forall x, In x xs -> (lo <= x)%Q) /\
    (lo = m0 \/ In lo xs).
Proof.
  revert m0. induction xs as [| x xs IH]; intro m0; cbn [fold_left].
  - exists m0. split; [reflexivity |]. split; [apply Qle_refl |].
    split; [intros x [] | now left].
  - change (Num.min (Num.Fin m0) (Num.Fin x))
      with (if Qle_bool m0 x then Num.Fin m0 else Num.Fin x).
    destruct (Qle_bool m0 x) eqn:L.
    + apply Qle_bool_iff in L.
      destruct (IH m0) as (lo & F & B & A & W).
      exists lo. split; [exact F |]. split; [exact B |].
      split; [intros y [<- | Hy]; [exact (Qle_trans _ _ _ B L) | auto] |].
      destruct W as [-> | W]; [now left | right; now right].
    + assert (X : (x <= m0)%Q).
      { destruct (Qlt_le_dec m0 x) as [C | C]; [| exact C].
        apply Qlt_le_weak, Qle_bool_iff in C. congruence. }
      destruct (IH x) as (lo & F & B & A & W).
      exists lo. split; [exact F |].
      split; [exact (Qle_trans _ _ _ B X) |].
      split; [intros y [<- | Hy]; auto |].
      destruct W as [-> | W]; [right; now left | right; now right].
Qed.

Lemma sumValues_nonneg (l : list DataPoint) :
  (forall p, In p l -> (0 <= value p)%Q) -> (0 <= sumValues l)%Q.
Proof.
  unfold sumValues. intro V.
  assert (A : forall acc, (0 <= acc)%Q ->
            (0 <= fold_left
                    (fun sum point => Double.add sum (Double.round (value point)))
                    l acc)%Q).
  { induction l as [| p l IHl]; intros acc Pa; simpl; [exact Pa |].
    apply IHl; [intros q Hq; apply V; now right |].
    unfold Double.add. apply Double_round_nonneg.
    pose proof (Double_round_nonneg _ (V p (or_introl eq_refl))). lra. }
  exact (A 0%Q (Qle_refl 0)).
Qed.

Lemma weeklyAvg_finite (h : HabitData) :
  data h <> [] ->
  weeklyAvg h
  = Num.Fin (Double.div (weeklyTotal h) (inject_Z (JS.length (data h)))) /\
  (0 < inject_Z (JS.length (data h)))%Q.
Proof.
  intro Hne.
  assert (P : (0 < inject_Z (JS.length (data h)))%Q).
  { unfold JS.length. destruct (data h); [congruence |].
    change 0%Q with (inject_Z 0). rewrite <- Zlt_Qlt. simpl. lia. }
  split; [| exact P].
  unfold weeklyAvg, Num.div.
  destruct (Qeq_bool _ 0) eqn:Z0; [| reflexivity].
  apply Qeq_bool_eq in Z0. rewrite Z0 in P. exfalso. exact (Qlt_irrefl 0 P).
Qed.

Lemma weeklyAvg_nonneg (h : HabitData) :
  data h <> [] -> (forall p, In p (data h) -> (0 <= value p)%Q) ->
  (0 <= Double.div (weeklyTotal h) (inject_Z (JS.length (data h))))%Q.
Proof.
  intros Hne V. destruct (weeklyAvg_finite h Hne) as [_ Pn].
  unfold Double.div. apply Double_round_nonneg.
  apply Qle_shift_div_l; [exact Pn |].
  pose proof (sumValues_nonneg (data h) V) as T. fold (weeklyTotal h) in T.
  lra.
Qed.

(** X15. The weekly figures of a habit with at least one data point: the
    low and the high are values of the week and every value lies between
    them; the average is the total divided by the number of points, one
    rounded division after the rounded additions of the total, and neither
    is negative when no value is.  (The rounded average need not lie
    between the low and the high: [weekly_average_below_low].)  With no
    data point the low is plus infinity, the high minus infinity and the
    average not a number. *)
Theorem weekly_statistics_bounds (h : HabitData) :
  (data h = [] ->
     weeklyLow h = Num.PInf /\ weeklyHigh h = Num.NInf /\
     weeklyAvg h = Num.NaN /\ weeklyTotal h = 0%Q) /\
  (data h <> [] ->
     exists lo hi avg,
       weeklyLow h = Num.Fin lo /\ weeklyHigh h = Num.Fin hi /\
       weeklyAvg h = Num.Fin avg /\
       avg = Double.div (weeklyTotal h) (inject_Z (JS.length (data h))) /\
       (forall p, In p (data h) -> (lo <= value p)%Q /\ (value p <= hi)%Q) /\
       In lo (List.map value (data h)) /\ In hi (List.map value (data h)) /\
       ((forall p, In p (data h) -> (0 <= value p)%Q) ->
          (0 <= weeklyTotal h)%Q /\ (0 <= avg)%Q)).
Proof.
  split.
  - intro E. unfold weeklyLow, weeklyHigh, weeklyAvg, weeklyTotal.
    rewrite E. repeat split.
  - intro Hne.
    destruct (weeklyAvg_finite h Hne) as [Avg Pn].
    pose proof (weeklyAvg_nonneg h Hne) as AvgP.
    pose proof (sumValues_nonneg (data h)) as TotP. fold (weeklyTotal h) in TotP.
    unfold weeklyLow, weeklyHigh, Num.minOf, Num.maxOf.
    destruct (data h) as [| p l] eqn:D; [congruence |].
    simpl List.map. simpl fold_left.
    change (Num.min Num.PInf (Num.Fin (value p))) with (Num.Fin (value p)).
    change (Num.max Num.NInf (Num.Fin (value p))) with (Num.Fin (value p)).
    destruct (fold_min_from (List.map value l) (value p))
      as (lo & Flo & Blo & Alo & Wlo).
    destruct (fold_max_from (List.map value l) (value p))
      as (hi & Fhi & Bhi & Ahi & Whi).
    assert (R : forall q, In q (p :: l) -> (lo <= value q)%Q /\ (value q <= hi)%Q).
    { intros q [<- | Hq]; [split; assumption |].
      split; [apply Alo | apply Ahi]; now apply in_map. }
    exists lo, hi, (Double.div (weeklyTotal h) (inject_Z (JS.length (p :: l)))).
    split; [exact Flo |]. split; [exact Fhi |]. split; [exact Avg |].
    split; [reflexivity |].
    split; [exact R |].
    split; [destruct Wlo as [-> | W]; [now left | now right] |].
    split; [destruct Whi as [-> | W]; [now left | now right] |].
    intro V. split; [exact (TotP V) | exact (AvgP V)].
Qed.

(** Seven values of 0.1: the total is the double 0.7, and the average,
    0.09999999999999999, is below the low of the week. *)
Example weekly_average_below_low :
  weeklyLow tenths = Num.Fin 0.1 /\ weeklyHigh tenths = Num.Fin 0.1 /\
  (weeklyTotal tenths == Double.round 0.7)%Q /\
  exists avg,
    weeklyAvg tenths = Num.Fin avg /\
    (avg < 0.1)%Q /\ (avg < Double.round 0.1)%Q.
Proof.
  split; [reflexivity |]. split; [reflexivity |].
  split; [vm_compute; reflexivity |].
  eexists. split; [reflexivity |]. split; vm_compute; reflexivity.
Qed.

(** ** The value update seen from the panels *)

Lemma weeklyTotal_last (h : HabitData) (earlier : list DataPoint)
      (today : DataPoint) :
  data h = earlier ++ [today] ->
  weeklyTotal h
  = Double.add (sumValues earlier) (Double.round (value today)).
Proof.
  intro D. unfold weeklyTotal, sumValues. rewrite D, fold_left_app.
  reflexivity.
Qed.

Lemma yesterday_last (h : HabitData) (earlier : list DataPoint)
      (today : DataPoint) :
  data h = earlier ++ [today] ->
  yesterday h =
    match JS.get earlier (JS.length earlier - 1) with
    | Some point => if Qeq_bool (value point) 0 then 0%Q else value point
    | None => 0%Q
    end.
Proof.
  intro D. unfold yesterday. rewrite D.
  replace (JS.length (earlier ++ [today]) - 2) with (JS.length earlier - 1)
    by (unfold JS.length; rewrite length_app; simpl; lia).
  destruct earlier as [| e earlier]; [reflexivity |].
  unfold JS.get, JS.length. simpl List.length.
  destruct (Z.ltb_spec (Z.of_nat (S (List.length earlier)) - 1) 0) as [C | _];
    [lia |].
  rewrite nth_error_app1; [reflexivity |]. simpl List.length. lia.
Qed.

(** X16. What the panels show after a value update: "Yesterday" stays
    what it was for every habit and the weekly total of the other habits
    stays too; the total of the updated habit is the sum of the data points
    before the last one plus the new value, where it was that sum plus the
    old last value (the one addition rounds, so the total need not move by
    exactly the difference of the two values). *)
Theorem value_update_moves_weekly_total
    (s s' : AppState) (id : string) (v : Q) (log : list Effect)
    (Hrun : handleHabitChange id v s = Some (tt, s', log)) :
  forall i h, nth_error (habits s) i = Some h ->
    exists h', nth_error (habits s') i = Some h' /\
      yesterday h' = yesterday h /\
      (habit_id h <> id -> weeklyTotal h' = weeklyTotal h) /\
      (habit_id h = id ->
         exists earlier today,
           data h = earlier ++ [today] /\
           JS.get (data h) (JS.length (data h) - 1) = Some today /\
           weeklyTotal h
           = Double.add (sumValues earlier) (Double.round (value today)) /\
           weeklyTotal h'
           = Double.add (sumValues earlier) (Double.round v)).
Proof.
  destruct (handleHabitChange_inv _ _ _ _ _ Hrun) as (Map & _).
  destruct (mapThrow_nth _ _ _ Map) as [_ Nth].
  intros i h Hi. destruct (Nth i h Hi) as (h' & Fh & Hi').
  exists h'. split; [exact Hi' |].
  destruct (String.eqb_spec (habit_id h) id) as [E | E].
  - destruct (data h) as [| d l] eqn:D.
    { apply (proj2 (withValue_throws v h)) in D. congruence. }
    destruct (@exists_last _ (d :: l)) as (earlier & today & E'); [discriminate |].
    rewrite E' in D. rewrite (withValue_last v h earlier today D) in Fh.
    injection Fh as <-.
    split.
    { rewrite (yesterday_last h earlier today D).
      apply (yesterday_last _ earlier (mkDataPoint (day today) v)). reflexivity. }
    split; [intro C; contradiction |]. intros _.
    exists earlier, today. split; [exact E' |].
    split; [rewrite E'; apply get_last |].
    split; [exact (weeklyTotal_last h earlier today D) |].
    erewrite (weeklyTotal_last _ earlier (mkDataPoint (day today) v))
      by reflexivity.
    reflexivity.
  - injection Fh as <-. split; [reflexivity |].
    split; [reflexivity | intro C; contradiction].
Qed.

(** The water habit of the mounted page reads a total of 16.7; with
    today's 2.8 set to 0 it reads the double below 13.9,
    13.899999999999999. *)
Example water_total_after_zero :
  (weeklyTotal waterHabit == Double.round 16.7)%Q /\
  exists water',
    withValue 0 waterHabit = Some water' /\
    (weeklyTotal water' < Double.round 13.9)%Q /\
    (Double.round 13.9 - weeklyTotal water' == 2 ^ (-49))%Q.
Proof.
  split; [vm_compute; reflexivity |].
  eexists. split; [reflexivity |]. split; vm_compute; reflexivity.
Qed.

(** ** The progress bar and the progress text of a habit panel *)

Lemma not_le_gt (a g : Q) : JS.le a g = false -> (g < a)%Q.
Proof.
  intro L. destruct (Qlt_le_dec g a) as [C | C]; [exact C |].
  apply le_true_iff in C. congruence.
Qed.

Lemma clamp_range (x : Num.t) :
  x <> Num.NaN ->
  exists r,
    Num.max (Num.Fin 0) (Num.min (Num.Fin 100) x) = Num.Fin r /\
    (0 <= r)%Q /\ (r <= 100)%Q.
Proof.
  intro N. destruct x as [q | | |]; [| | | congruence].
  - change (Num.min (Num.Fin 100) (Num.Fin q))
      with (if Qle_bool 100 q then Num.Fin 100 else Num.Fin q).
    destruct (Qle_bool 100 q) eqn:L.
    + exists 100%Q. split; [reflexivity |]. split; lra.
    + assert (U : (q <= 100)%Q).
      { apply Qlt_le_weak. apply (not_le_gt 100 q). exact L. }
      change (Num.max (Num.Fin 0) (Num.Fin q))
        with (if Qle_bool 0 q then Num.Fin q else Num.Fin 0).
      destruct (Qle_bool 0 q) eqn:L0.
      * apply Qle_bool_iff in L0. exists q. auto.
      * exists 0%Q. split; [reflexivity |]. split; lra.
  - exists 100%Q. split; [reflexivity |]. split; lra.
  - exists 0%Q. split; [reflexivity |]. split; lra.
Qed.

(** [overGoal] at a finite value above the goal. *)
Lemma overGoal_above (h : HabitData) (a : Q) :
  (goal h < a)%Q ->
  overGoal h (Num.Fin a) =
    if Qeq_bool (goal h) 0 then Num.NInf
    else Num.Fin (100 + - ((a + - goal h) / goal h * 100))%Q.
Proof.
  intro G. unfold overGoal, Num.sub, Num.neg, Num.add, Num.div.
  destruct (Qeq_bool (goal h) 0); [| reflexivity].
  assert (S : Num.sign (a + - goal h) = Gt).
  { unfold Num.sign. apply Qgt_alt. lra. }
  rewrite S. reflexivity.
Qed.

Lemma dailyGoalPercentage_finite (h : HabitData) :
  (0 < goal h)%Q ->
  dailyGoalPercentage h = Num.Fin (current h / goal h * 100)%Q.
Proof.
  intro G. unfold dailyGoalPercentage, Num.div.
  destruct (Qeq_bool (goal h) 0) eqn:Z0; [| reflexivity].
  apply Qeq_bool_eq in Z0. rewrite Z0 in G. exfalso. exact (Qlt_irrefl 0 G).
Qed.

Lemma percent_nonneg (x g : Q) :
  (0 < g)%Q -> (0 <= x)%Q -> (0 <= x / g * 100)%Q.
Proof.
  intros G X.
  assert (L : (0 <= x / g)%Q) by (apply Qle_shift_div_l; [exact G | lra]).
  generalize dependent (x / g)%Q. intros r L. lra.
Qed.

Lemma min100_range (q : Q) :
  (0 <= q)%Q ->
  exists r,
    Num.min (Num.Fin 100) (Num.Fin q) = Num.Fin r /\ (0 <= r)%Q /\ (r <= 100)%Q.
Proof.
  intro P.
  change (Num.min (Num.Fin 100) (Num.Fin q))
    with (if Qle_bool 100 q then Num.Fin 100 else Num.Fin q).
  destruct (Qle_bool 100 q) eqn:L.
  - exists 100%Q. split; [reflexivity |]. split; lra.
  - exists q. split; [reflexivity |]. split; [exact P |].
    apply Qlt_le_weak. apply (not_le_gt 100 q). exact L.
Qed.

(** X17. The width of the progress bar is a percentage between 0 and 100
    for the screen habit with any goal and value, and for the other habits
    with a positive goal and values that are not negative; in the weekly
    view this needs a data point: with none the width is not a number, for
    every habit. *)
Theorem progress_bar_range (h : HabitData) :
  (habit_id h = "screen" ->
     exists q, getProgressPercentage daily h = Num.Fin q /\
               (0 <= q)%Q /\ (q <= 100)%Q) /\
  (habit_id h = "screen" -> data h <> [] ->
     exists q, getProgressPercentage weekly h = Num.Fin q /\
               (0 <= q)%Q /\ (q <= 100)%Q) /\
  (habit_id h <> "screen" -> (0 < goal h)%Q -> (0 <= current h)%Q ->
     exists q, getProgressPercentage daily h = Num.Fin q /\
               (0 <= q)%Q /\ (q <= 100)%Q) /\
  (habit_id h <> "screen" -> (0 < goal h)%Q -> data h <> [] ->
   (forall p, In p (data h) -> (0 <= value p)%Q) ->
     exists q, getProgressPercentage weekly h = Num.Fin q /\
               (0 <= q)%Q /\ (q <= 100)%Q) /\
  (data h = [] -> getProgressPercentage weekly h = Num.NaN).
Proof.
  assert (Over : forall a, JS.le a (goal h) = false ->
            exists q, Num.max (Num.Fin 0)
                        (Num.min (Num.Fin 100) (overGoal h (Num.Fin a)))
                      = Num.Fin q /\ (0 <= q)%Q /\ (q <= 100)%Q).
  { intros a L. apply clamp_range.
    rewrite (overGoal_above h a (not_le_gt _ _ L)).
    destruct (Qeq_bool (goal h) 0); discriminate. }
  split; [| split; [| split; [| split]]].
  - intro E. unfold getProgressPercentage. rewrite E. simpl.
    destruct (JS.le (current h) (goal h)) eqn:L.
    + exists 100%Q. split; [reflexivity |]. split; lra.
    + exact (Over _ L).
  - intros E Hne. unfold getProgressPercentage. rewrite E. simpl.
    destruct (weeklyAvg_finite h Hne) as [-> _].
    change (Num.le (Num.Fin ?a) (Num.Fin ?b)) with (JS.le a b).
    destruct (JS.le _ (goal h)) eqn:L.
    + exists 100%Q. split; [reflexivity |]. split; lra.
    + exact (Over _ L).
  - intros E G C. apply String.eqb_neq in E.
    unfold getProgressPercentage. rewrite E.
    rewrite (dailyGoalPercentage_finite h G).
    apply min100_range. exact (percent_nonneg _ _ G C).
  - intros E G Hne V. apply String.eqb_neq in E.
    unfold getProgressPercentage, weeklyGoalPercentage. rewrite E.
    destruct (weeklyAvg_finite h Hne) as [-> Pn].
    unfold Num.div.
    destruct (Qeq_bool (goal h) 0) eqn:Z0.
    { apply Qeq_bool_eq in Z0. rewrite Z0 in G. exfalso.
      exact (Qlt_irrefl 0 G). }
    apply min100_range. apply (percent_nonneg _ _ G).
    exact (weeklyAvg_nonneg h Hne V).
  - intro E.
    unfold getProgressPercentage, weeklyGoalPercentage, overGoal, weeklyAvg,
      weeklyTotal.
    rewrite E. destruct (habit_id h =? "screen")%string; reflexivity.
Qed.

(** X18. In the daily view a habit that meets its goal reads 100 percent;
    its bar is full too when it is the screen habit or its goal is
    positive.  For a habit other than screen with goal 0 and value 0 the
    text reads 100 percent while the width of the bar is not a number. *)
Theorem achieved_habit_reads_full (h : HabitData) :
  (Spec.achieved h -> getProgressText daily h = Num.Fin 100) /\
  (Spec.achieved h -> habit_id h = "screen" \/ (0 < goal h)%Q ->
     getProgressPercentage daily h = Num.Fin 100) /\
  (habit_id h <> "screen" -> (goal h == 0)%Q -> (current h == 0)%Q ->
     getProgressText daily h = Num.Fin 100 /\
     getProgressPercentage daily h = Num.NaN).
Proof.
  unfold getProgressText, getProgressPercentage.
  split; [| split].
  - intro A. apply goalMetAt_iff in A. unfold goalMetAt in A.
    destruct (habit_id h =? "screen")%string; rewrite A; reflexivity.
  - intros A G. pose proof A as A'.
    apply goalMetAt_iff in A. unfold goalMetAt in A.
    destruct (String.eqb_spec (habit_id h) "screen") as [E | E].
    + rewrite A. reflexivity.
    + destruct G as [G | G]; [contradiction |].
      rewrite (dailyGoalPercentage_finite h G).
      change (Num.min (Num.Fin 100) (Num.Fin ?q))
        with (if Qle_bool 100 q then Num.Fin 100 else Num.Fin q).
      assert (L : Qle_bool 100 (current h / goal h * 100) = true).
      { apply Qle_bool_iff. apply ge_true_iff in A.
        assert (R : (1 <= current h / goal h)%Q).
        { apply Qle_shift_div_l; [exact G | lra]. }
        generalize dependent (current h / goal h)%Q. intros. lra. }
      rewrite L. reflexivity.
  - intros E G C. apply String.eqb_neq in E. rewrite E.
    assert (A : JS.ge (current h) (goal h) = true).
    { apply ge_true_iff. rewrite G, C. apply Qle_refl. }
    rewrite A. split; [reflexivity |].
    unfold dailyGoalPercentage, Num.div.
    assert (Z0 : Qeq_bool (goal h) 0 = true) by (now apply Qeq_bool_iff).
    rewrite Z0. unfold Num.sign. apply Qeq_alt in C. rewrite C. reflexivity.
Qed.





(** ** The weekly activity chart *)

Lemma get_some_iff {A : Type} (l : list A) (i : Z) :
  JS.get l i <> None <-> 0 <= i < JS.length l.
Proof.
  unfold JS.get, JS.length.
  destruct (Z.ltb_spec i 0) as [C | C].
  - split; [congruence | lia].
  - rewrite nth_error_Some. lia.
Qed.

Lemma get_nth {A : Type} (l : list A) (j : nat) :
  JS.get l (Z.of_nat j) = nth_error l j.
Proof.
  unfold JS.get. destruct (Z.ltb_spec (Z.of_nat j) 0) as [C | _]; [lia |].
  now rewrite Nat2Z.id.
Qed.

Lemma getProp_set_same (obj : Obj) (key : string) (v : Cell) :
  key <> "__proto__" -> getProp (setProp obj key v) key = Some v.
Proof.
  intro P. apply String.eqb_neq in P. unfold setProp. rewrite P.
  induction obj as [| [k c] r IH]; simpl.
  - now rewrite String.eqb_refl.
  - destruct (k =? key)%string eqn:E; simpl.
    + now rewrite String.eqb_refl.
    + now rewrite E.
Qed.

Lemma getProp_set_other (obj : Obj) (key key' : string) (v : Cell) :
  key <> key' -> getProp (setProp obj key v) key' = getProp obj key'.
Proof.
  intro N. unfold setProp.
  destruct (key =? "__proto__")%string; [reflexivity |].
  induction obj as [| [k c] r IH]; simpl.
  - apply String.eqb_neq in N. now rewrite N.
  - destruct (String.eqb_spec k key) as [E | E]; simpl.
    + subst k. apply String.eqb_neq in N. now rewrite N.
    + destruct (k =? key')%string; [reflexivity | exact IH].
Qed.

Lemma fillDay_returns_iff (i : Z) (hs : list HabitData) (d : Obj) :
  (exists d', fillDay i hs d = Some d') <->
  forall h, In h hs -> JS.get (data h) i <> None.
Proof.
  revert d. induction hs as [| h hs IH]; intro d; simpl.
  - split; [intros _ h [] | eauto].
  - destruct (JS.get (data h) i) as [p |] eqn:G.
    + rewrite IH. split.
      * intros H h' [<- | Hin]; [congruence | auto].
      * intros H h' Hin. apply H. now right.
    + split.
      * intros [d' C]. discriminate.
      * intro H. exfalso. apply (H h); [now left | exact G].
Qed.

Lemma fillDay_props (i : Z) (hs : list HabitData) (d d' : Obj) :
  NoDup (List.map habit_id hs) ->
  ~ In "__proto__" (List.map habit_id hs) ->
  fillDay i hs d = Some d' ->
  (forall h, In h hs ->
     exists p, JS.get (data h) i = Some p /\
               getProp d' (habit_id h) = Some (Numb (value p))) /\
  (forall key, ~ In key (List.map habit_id hs) -> getProp d' key = getProp d key).
Proof.
  revert d. induction hs as [| h hs IH]; intros d ND NP F; simpl in F.
  - injection F as <-. split; [intros h [] | reflexivity].
  - destruct (JS.get (data h) i) as [p |] eqn:G; [| discriminate].
    inversion ND as [| x l Nin ND' Eq]; subst.
    simpl in NP.
    destruct (IH _ ND' ltac:(tauto) F) as [In' Out'].
    split.
    + intros h' [<- | Hin]; [| auto].
      exists p. split; [exact G |].
      rewrite (Out' _ Nin). apply getProp_set_same.
      intro C. apply NP. left. exact C.
    + intros key Nk. simpl in Nk.
      rewrite Out' by tauto. apply getProp_set_other. tauto.
Qed.

Lemma combineFrom_returns_iff (i : Z) (days : list string)
      (hs : list HabitData) :
  0 <= i ->
  ((exists rows, combineFrom i days hs = Some rows) <->
   forall h, In h hs -> days <> [] ->
     i + JS.length days <= JS.length (data h)).
Proof.
  revert i. induction days as [| d days IH]; intros i Hi.
  - simpl. split; [intros _ h _ C; congruence | eauto].
  - cbn [combineFrom].
    assert (L : JS.length (d :: days) = JS.length days + 1).
    { unfold JS.length. simpl List.length. lia. }
    assert (Ln : 0 <= JS.length days) by (unfold JS.length; lia).
    split.
    + intros [rows R] h Hin _.
      destruct (fillDay i hs [("day", Str d)]) as [dd |] eqn:F; [| discriminate].
      destruct (combineFrom (i + 1) days hs) as [rs |] eqn:C; [| discriminate].
      assert (G : JS.get (data h) i <> None).
      { apply (proj1 (fillDay_returns_iff i hs [("day", Str d)]));
          [eauto | exact Hin]. }
      apply get_some_iff in G.
      destruct days as [| d2 days'].
      * unfold JS.length in *. simpl in *. lia.
      * pose proof (proj1 (IH (i + 1) ltac:(lia)) (ex_intro _ rs C) h Hin
                      ltac:(discriminate)).
        lia.
    + intro H.
      assert (F : exists dd, fillDay i hs [("day", Str d)] = Some dd).
      { apply fillDay_returns_iff. intros h Hin. apply get_some_iff.
        specialize (H h Hin ltac:(discriminate)). lia. }
      destruct F as [dd ->].
      assert (C : exists rs, combineFrom (i + 1) days hs = Some rs).
      { apply IH; [lia |]. intros h Hin _.
        specialize (H h Hin ltac:(discriminate)). lia. }
      destruct C as [rs ->]. eauto.
Qed.

(** X21. The rows of the weekly chart are built without an exception
    exactly when every habit has at least as many data points as the first
    one; they are empty when there is no habit. *)
Theorem combinedData_returns_iff (first : HabitData) (rest : list HabitData) :
  combinedData [] = Some [] /\
  ((exists rows, combinedData (first :: rest) = Some rows) <->
   forall h, In h (first :: rest) ->
     (List.length (data first) <= List.length (data h))%nat).
Proof.
  split; [reflexivity |].
  unfold combinedData. change (JS.get (first :: rest) 0) with (Some first).
  cbv zeta. rewrite combineFrom_returns_iff by lia.
  unfold JS.length. rewrite length_map.
  split.
  - intros H h Hin. destruct (data first) as [| p l] eqn:D; [simpl; lia |].
    specialize (H h Hin ltac:(discriminate)). simpl List.length in *. lia.
  - intros H h Hin _. specialize (H h Hin). lia.
Qed.

Lemma combineFrom_rows (i : Z) (days : list string) (hs : list HabitData)
      (rows : list Obj) :
  0 <= i ->
  NoDup (List.map habit_id hs) -> ~ In "day" (List.map habit_id hs) ->
  ~ In "__proto__" (List.map habit_id hs) ->
  combineFrom i days hs = Some rows ->
  List.length rows = List.length days /\
  forall j row, nth_error rows j = Some row ->
    (exists d, nth_error days j = Some d /\ getProp row "day" = Some (Str d)) /\
    forall h, In h hs ->
      exists p, JS.get (data h) (i + Z.of_nat j) = Some p /\
                getProp row (habit_id h) = Some (Numb (value p)).
Proof.
  intros Hi ND Nday Nproto. revert i Hi rows.
  induction days as [| d days IH]; intros i Hi rows C; cbn [combineFrom] in C.
  - injection C as <-. split; [reflexivity |]. intros [| j] row Hj; discriminate.
  - destruct (fillDay i hs [("day", Str d)]) as [dd |] eqn:F; [| discriminate].
    destruct (combineFrom (i + 1) days hs) as [rs |] eqn:R; [| discriminate].
    injection C as <-.
    destruct (IH (i + 1) ltac:(lia) rs R) as [Len Rows].
    destruct (fillDay_props i hs _ dd ND Nproto F) as [Ins Outs].
    split; [simpl; congruence |].
    intros [| j] row Hj; simpl in Hj.
    + injection Hj as <-. split.
      * exists d. split; [reflexivity |]. rewrite (Outs "day" Nday).
        reflexivity.
      * intros h Hin. rewrite Z.add_0_r. exact (Ins h Hin).
    + destruct (Rows j row Hj) as [Dj Hs]. split; [exact Dj |].
      intros h Hin. destruct (Hs h Hin) as (p & G & P).
      exists p. split; [| exact P].
      replace (i + Z.of_nat (S j)) with (i + 1 + Z.of_nat j) by lia. exact G.
Qed.

(** X22. When the habit ids are pairwise different and none is "day" or
    "__proto__", row [j] of the weekly chart holds under "day" the label of
    the [j]-th data point of the first habit and under each habit's id the
    value of that habit's [j]-th data point; there are as many rows as the
    first habit has data points.  (A habit with the id "day" overwrites the
    label, and one with the id "__proto__" leaves no number in the row.) *)
Theorem combinedData_lookup
    (first : HabitData) (rest : list HabitData) (rows : list Obj)
    (Hrun : combinedData (first :: rest) = Some rows)
    (Hids : NoDup (List.map habit_id (first :: rest)))
    (Hday : ~ In "day" (List.map habit_id (first :: rest)))
    (Hproto : ~ In "__proto__" (List.map habit_id (first :: rest))) :
  List.length rows = List.length (data first) /\
  forall j row, nth_error rows j = Some row ->
    (exists p0, nth_error (data first) j = Some p0 /\
                getProp row "day" = Some (Str (day p0))) /\
    forall h, In h (first :: rest) ->
      exists p, nth_error (data h) j = Some p /\
                getProp row (habit_id h) = Some (Numb (value p)).
Proof.
  unfold combinedData in Hrun.
  change (JS.get (first :: rest) 0) with (Some first) in Hrun. cbv zeta in Hrun.
  destruct (combineFrom_rows 0 _ _ rows ltac:(lia) Hids Hday Hproto Hrun)
    as [Len Rows].
  split; [now rewrite Len, length_map |].
  intros j row Hj. destruct (Rows j row Hj) as [(d & Dj & Pd) Hs].
  split.
  - rewrite nth_error_map in Dj.
    destruct (nth_error (data first) j) as [p0 |]; [| discriminate].
    injection Dj as <-. eauto.
  - intros h Hin. destruct (Hs h Hin) as (p & G & P).
    exists p. split; [| exact P].
    rewrite Z.add_0_l, get_nth in G. exact G.
Qed.

(** The chart of a habit with the id "__proto__": seven rows that hold
    their day label and nothing else. *)
Example proto_habit_leaves_no_number :
  combinedData [protoHabit]
  = Some (List.map (fun d => [("day", Str d)]) (getDates monday)).
Proof. reflexivity. Qed.

(** ** Day labels *)

Lemma mapThrow_habits_days (id : string) (v : Q) (hs hs' : list HabitData) :
  JS.mapThrow (fun habit => if (habit_id habit =? id)%string
                            then withValue v habit else Some habit) hs
    = Some hs' ->
  List.map (fun h => List.map day (data h)) hs'
  = List.map (fun h => List.map day (data h)) hs.
Proof.
  revert hs'. induction hs as [| h hs IH]; intros hs' H; simpl in H.
  - injection H as <-. reflexivity.
  - destruct (if (habit_id h =? id)%string then withValue v h else Some h)
      as [h' |] eqn:Fh; [| discriminate].
    destruct (JS.mapThrow _ hs) as [r |]; [| discriminate].
    injection H as <-. simpl. rewrite (IH r eq_refl). f_equal.
    destruct (habit_id h =? id)%string; [| now injection Fh as <-].
    destruct (data h) as [| d l] eqn:D.
    + apply (proj2 (withValue_throws v h)) in D. congruence.
    + destruct (@exists_last _ (d :: l)) as (earlier & today & E);
        [discriminate |].
      rewrite E in D. rewrite (withValue_last v h earlier today D) in Fh.
      injection Fh as <-. cbn [data]. rewrite E, !map_app. reflexivity.
Qed.

Lemma step_days (s : AppState) (e : Event) (s' : AppState) (log : list Effect) :
  step s e s' log ->
  List.map (fun h => List.map day (data h)) (habits s')
  = List.map (fun h => List.map day (data h)) (habits s).
Proof.
  unfold step. intro Hstep.
  destruct e as [id v | id g | now | now | |]; simpl in Hstep.
  - destruct (handleHabitChange_inv _ _ _ _ _ Hstep) as (Map & _).
    exact (mapThrow_habits_days _ _ _ _ Map).
  - rewrite updateHabitGoal_run in Hstep. cbv zeta in Hstep.
    injection Hstep as <- _. simpl. rewrite map_map.
    apply map_ext. intro h. destruct (habit_id h =? id)%string; reflexivity.
  - rewrite handleCheckIn_run in Hstep.
    destruct (todayComplete s); injection Hstep as <- _; reflexivity.
  - rewrite checkNewDay_run in Hstep.
    destruct (lastCheckin s) as [last |];
      [destruct (isNewDay now last); [destruct (missedDay now last) |] |];
      injection Hstep as <- _; reflexivity.
  - rewrite checkMissedHabits_run in Hstep. injection Hstep as <- _. reflexivity.
  - unfold clearNotification in Hstep. injection Hstep as <- _. reflexivity.
Qed.

Lemma getDates_distinct (today : Date) :
  NoDup (getDates today) /\
  nth_error (getDates today) 6 = Some (weekdayShort (getDay today)).
Proof.
  unfold getDates. simpl List.map. rewrite Z.sub_0_r.
  split; [| reflexivity].
  unfold weekdayShort.
  rewrite !(Zminus_mod (getDay today)).
  pose proof (Z.mod_pos_bound (getDay today) 7 ltac:(lia)) as B.
  assert (C : getDay today mod 7 = 0 \/ getDay today mod 7 = 1 \/
              getDay today mod 7 = 2 \/ getDay today mod 7 = 3 \/
              getDay today mod 7 = 4 \/ getDay today mod 7 = 5 \/
              getDay today mod 7 = 6) by lia.
  destruct C as [-> | [-> | [-> | [-> | [-> | [-> | ->]]]]]]; simpl;
    repeat (constructor; [simpl; intuition discriminate |]); constructor.
Qed.

(** X23. The day labels never change: in every reachable state the data
    points of every habit carry the seven labels computed when the page
    was mounted, which are seven different weekday names ending with the
    one of the mount day. *)
Theorem reachable_day_labels (s : AppState) (Hreach : reachable s) :
  exists today,
    Forall (fun h => List.map day (data h) = getDates today) (habits s) /\
    NoDup (getDates today) /\
    nth_error (getDates today) 6 = Some (weekdayShort (getDay today)).
Proof.
  induction Hreach as [today | s e s' log R IH Hstep].
  - exists today. split; [| exact (getDates_distinct today)].
    unfold initialState, initialHabits. simpl habits.
    repeat constructor.
  - destruct IH as (today & F & D). exists today. split; [| exact D].
    pose proof (step_days s e s' log Hstep) as E.
    apply Forall_forall. intros h' Hin.
    assert (I : In (List.map day (data h'))
                   (List.map (fun h => List.map day (data h)) (habits s'))).
    { apply (in_map (fun h => List.map day (data h))). exact Hin. }
    rewrite E in I. apply in_map_iff in I. destruct I as (h & Eh & Hh).
    rewrite <- Eh. exact (proj1 (Forall_forall _ _) F h Hh).
Qed.

(** ** Concrete runs of the further properties *)

Lemma afterSleep_step :
  step mounted (HabitChange "sleep" 8.5) afterSleep sleepAchieved.
Proof. vm_compute. reflexivity. Defined.

Lemma afterSleep_reachable : reachable afterSleep.
Proof.
  exact (reachable_step mounted (HabitChange "sleep" 8.5) afterSleep
           sleepAchieved (reachable_init monday) afterSleep_step).
Defined.

Lemma afterSleepTwice_run :
  handleHabitChange "sleep" 6 afterSleep = Some (tt, afterSleepTwice, []).
Proof. vm_compute. reflexivity. Defined.

Lemma reachable_state_shape_witness :
  reachable afterSleep /\
  0 <= streak afterSleep /\
  List.map habit_id (habits afterSleep) = habitIds /\
  Forall (fun h => List.length (data h) = 7%nat) (habits afterSleep) /\
  List.map metadata (habits afterSleep) = List.map metadata (initialHabits []) /\
  (todayComplete afterSleep = true -> lastCheckin afterSleep <> None).
Proof.
  split; [exact afterSleep_reachable |].
  exact (reachable_state_shape afterSleep afterSleep_reachable).
Defined.

Lemma reachable_never_throws_witness :
  reachable afterSleep /\
  exists s' log,
    step afterSleep (HabitChange "screen" 3.5) s' log /\ reachable s'.
Proof.
  split; [exact afterSleep_reachable |].
  exact (reachable_never_throws afterSleep (HabitChange "screen" 3.5)
           afterSleep_reachable).
Defined.

Lemma handleHabitChange_last_write_wins_witness :
  handleHabitChange "sleep" 8.5 mounted = Some (tt, afterSleep, sleepAchieved) /\
  handleHabitChange "sleep" 6 afterSleep = Some (tt, afterSleepTwice, []) /\
  (exists s2' l2',
     handleHabitChange "sleep" 6 mounted = Some (tt, s2', l2') /\
     habits s2' = habits afterSleepTwice) /\
  handleHabitChange "sleep" 8.5 afterSleep = Some (tt, afterSleep, []).
Proof.
  split; [exact afterSleep_step |]. split; [exact afterSleepTwice_run |].
  exact (handleHabitChange_last_write_wins mounted afterSleep afterSleepTwice
           "sleep" 8.5 6 sleepAchieved [] afterSleep_step afterSleepTwice_run).
Defined.

Lemma value_and_goal_updates_commute_witness :
  handleHabitChange "sleep" 8.5 mounted = Some (tt, afterSleep, sleepAchieved) /\
  exists sa la sb lb sc lc,
    updateHabitGoal "sleep" 9 afterSleep = Some (tt, sa, la) /\
    updateHabitGoal "sleep" 9 mounted = Some (tt, sb, lb) /\
    handleHabitChange "sleep" 8.5 sb = Some (tt, sc, lc) /\
    habits sa = habits sc /\ streak sa = streak sc /\
    lastCheckin sa = lastCheckin sc /\ todayComplete sa = todayComplete sc /\
    reminders sa = reminders sc.
Proof.
  split; [exact afterSleep_step |].
  exact (value_and_goal_updates_commute mounted afterSleep "sleep" "sleep"
           8.5 9 sleepAchieved afterSleep_step).
Defined.

Lemma every_notification_arms_its_timer_witness :
  step mounted (HabitChange "sleep" 8.5) afterSleep sleepAchieved /\
  ((sleepAchieved = [] /\ notification afterSleep = notification mounted) \/
   (exists m,
      sleepAchieved = [Notify m; ClearNotificationAfter 3000] /\
      notification afterSleep = Some m)).
Proof.
  split; [exact afterSleep_step |].
  exact (every_notification_arms_its_timer mounted (HabitChange "sleep" 8.5)
           afterSleep sleepAchieved afterSleep_step).
Defined.

Lemma each_cell_has_its_writers_witness :
  step mounted (HabitChange "sleep" 8.5) afterSleep sleepAchieved /\
  (reminders afterSleep <> reminders mounted ->
     HabitChange "sleep" 8.5 = MissedHabitsTimer) /\
  (habits afterSleep <> habits mounted ->
     (exists id v, HabitChange "sleep" 8.5 = HabitChange id v) \/
     (exists id g, HabitChange "sleep" 8.5 = GoalUpdate id g)) /\
  (lastCheckin afterSleep <> lastCheckin mounted ->
     exists now, HabitChange "sleep" 8.5 = CheckIn now /\
                 lastCheckin afterSleep = Some now) /\
  (todayComplete mounted = false -> todayComplete afterSleep = true ->
     exists now, HabitChange "sleep" 8.5 = CheckIn now).
Proof.
  split; [exact afterSleep_step |].
  exact (each_cell_has_its_writers mounted (HabitChange "sleep" 8.5)
           afterSleep sleepAchieved afterSleep_step).
Defined.

Lemma afterMissedDay_run :
  checkNewDay wednesday mounted =
    Some (tt, afterMissedDay,
          [Notify streakResetMessage; ClearNotificationAfter 3000]).
Proof. reflexivity. Defined.

Lemma checkNewDay_repeats_witness :
  checkNewDay wednesday mounted =
    Some (tt, afterMissedDay,
          [Notify streakResetMessage; ClearNotificationAfter 3000]) /\
  checkNewDay wednesday afterMissedDay =
    Some (tt, afterMissedDay,
          [Notify streakResetMessage; ClearNotificationAfter 3000]) /\
  lastCheckin afterMissedDay = lastCheckin mounted /\
  habits afterMissedDay = habits mounted /\
  reminders afterMissedDay = reminders mounted.
Proof.
  split; [exact afterMissedDay_run |].
  exact (checkNewDay_repeats mounted afterMissedDay wednesday _
           afterMissedDay_run).
Defined.

Lemma check_in_after_rollover_witness :
  lastCheckin mounted = Some monday /\
  Spec.dateDiffers monday wednesday /\
  exists s1 l1 s2 l2,
    checkNewDay wednesday mounted = Some (tt, s1, l1) /\
    handleCheckIn wednesday s1 = Some (tt, s2, l2) /\
    streak s2 = (if missedDay wednesday monday then 1 else streak mounted + 1) /\
    todayComplete s2 = true /\ lastCheckin s2 = Some wednesday /\
    notifications l2 = [checkInMessage] /\
    checkNewDay wednesday s2 = Some (tt, s2, []).
Proof.
  split; [reflexivity |]. split; [exact wednesday_differs |].
  exact (check_in_after_rollover mounted monday wednesday wednesday eq_refl
           wednesday_differs).
Defined.

Lemma seven_not_negative : 0 <= 7.
Proof. discriminate. Defined.

Lemma milestone_bar_and_next_witness :
  0 <= 7 /\ milestoneProgress 7 = 40 /\ nextMilestone 7 = 10 /\
  milestoneProgress 7 + 20 * (nextMilestone 7 - 7) = 100.
Proof.
  split; [exact seven_not_negative |].
  split; [reflexivity |]. split; [reflexivity |].
  apply (proj2 (proj2 (proj2 (proj2 (proj2
           (milestone_bar_and_next 7 seven_not_negative)))))).
  discriminate.
Defined.

Lemma value_update_moves_weekly_total_witness :
  handleHabitChange "sleep" 8.5 mounted = Some (tt, afterSleep, sleepAchieved) /\
  forall i h, nth_error (habits mounted) i = Some h ->
    exists h', nth_error (habits afterSleep) i = Some h' /\
      yesterday h' = yesterday h /\
      (habit_id h <> "sleep" -> weeklyTotal h' = weeklyTotal h) /\
      (habit_id h = "sleep" ->
         exists earlier today,
           data h = earlier ++ [today] /\
           JS.get (data h) (JS.length (data h) - 1) = Some today /\
           weeklyTotal h
           = Double.add (sumValues earlier) (Double.round (value today)) /\
           weeklyTotal h'
           = Double.add (sumValues earlier) (Double.round 8.5)).
Proof.
  split; [exact afterSleep_step |].
  exact (value_update_moves_weekly_total mounted afterSleep "sleep" 8.5
           sleepAchieved afterSleep_step).
Defined.









Lemma mounted_ids : NoDup (List.map habit_id (sleepHabit :: tl (habits mounted))).
Proof.
  simpl. repeat (constructor; [simpl; intuition discriminate |]). constructor.
Defined.

Lemma mounted_no_day : ~ In "day" (List.map habit_id (sleepHabit :: tl (habits mounted))).
Proof. simpl. intuition discriminate. Defined.

Lemma mounted_no_proto :
  ~ In "__proto__" (List.map habit_id (sleepHabit :: tl (habits mounted))).
Proof. simpl. intuition discriminate. Defined.

Lemma mountedRows_run :
  combinedData (sleepHabit :: tl (habits mounted)) = Some mountedRows.
Proof. vm_compute. reflexivity. Defined.

Lemma combinedData_lookup_witness :
  combinedData (sleepHabit :: tl (habits mounted)) = Some mountedRows /\
  NoDup (List.map habit_id (sleepHabit :: tl (habits mounted))) /\
  ~ In "day" (List.map habit_id (sleepHabit :: tl (habits mounted))) /\
  ~ In "__proto__" (List.map habit_id (sleepHabit :: tl (habits mounted))) /\
  List.length mountedRows = List.length (data sleepHabit) /\
  forall j row, nth_error mountedRows j = Some row ->
    (exists p0, nth_error (data sleepHabit) j = Some p0 /\
                getProp row "day" = Some (Str (day p0))) /\
    forall h, In h (sleepHabit :: tl (habits mounted)) ->
      exists p, nth_error (data h) j = Some p /\
                getProp row (habit_id h) = Some (Numb (value p)).
Proof.
  split; [exact mountedRows_run |]. split; [exact mounted_ids |].
  split; [exact mounted_no_day |]. split; [exact mounted_no_proto |].
  exact (combinedData_lookup sleepHabit (tl (habits mounted)) mountedRows
           mountedRows_run mounted_ids mounted_no_day mounted_no_proto).
Defined.

Lemma reachable_day_labels_witness :
  reachable afterSleep /\
  exists today,
    Forall (fun h => List.map day (data h) = getDates today) (habits afterSleep) /\
    NoDup (getDates today) /\
    nth_error (getDates today) 6 = Some (weekdayShort (getDay today)).
Proof.
  split; [exact afterSleep_reachable |].
  exact (reachable_day_labels afterSleep afterSleep_reachable).
Defined.

(** ** The goal cards *)

(** X24. The bar of a goal card does not look at the direction of the
    habit: with a positive goal and a value that is not negative it is
    between 0 and 100 percent and full exactly when the value is at least
    the goal; so for the screen habit a full bar means that the limit is
    reached or passed, and a screen habit under its limit never has a full
    bar. *)
Theorem goal_card_bar_ignores_direction (h : HabitData)
    (Hgoal : (0 < goal h)%Q) (Hcur : (0 <= current h)%Q) :
  exists q,
    goalCardProgress h = Num.Fin q /\ (0 <= q)%Q /\ (q <= 100)%Q /\
    ((q == 100)%Q <-> (goal h <= current h)%Q) /\
    (habit_id h = "screen" -> (current h < goal h)%Q ->
       Spec.achieved h /\ (q < 100)%Q).
Proof.
  unfold goalCardProgress.
  change (Num.mul (Num.div (Num.Fin (current h)) (Num.Fin (goal h)))
            (Num.Fin 100)) with (dailyGoalPercentage h).
  rewrite (dailyGoalPercentage_finite h Hgoal).
  change (Num.min (Num.Fin 100) (Num.Fin ?q))
    with (if Qle_bool 100 q then Num.Fin 100 else Num.Fin q).
  assert (P : (0 <= current h / goal h * 100)%Q)
    by exact (percent_nonneg _ _ Hgoal Hcur).
  assert (Ge : (goal h <= current h)%Q -> (100 <= current h / goal h * 100)%Q).
  { intro G. assert (R : (1 <= current h / goal h)%Q).
    { apply Qle_shift_div_l; [exact Hgoal | lra]. }
    generalize dependent (current h / goal h)%Q. intros. lra. }
  assert (Lt : (current h < goal h)%Q -> (current h / goal h * 100 < 100)%Q).
  { intro G. assert (R : (current h / goal h < 1)%Q).
    { apply Qlt_shift_div_r; [exact Hgoal | lra]. }
    generalize dependent (current h / goal h)%Q. intros. lra. }
  destruct (Qle_bool 100 (current h / goal h * 100)) eqn:L.
  - apply Qle_bool_iff in L.
    assert (G : (goal h <= current h)%Q).
    { destruct (Qlt_le_dec (current h) (goal h)) as [C | C]; [| exact C].
      apply Lt in C. lra. }
    exists 100%Q. split; [reflexivity |]. split; [lra |]. split; [lra |].
    split; [split; [intros _; exact G | reflexivity] |].
    intros _ C. lra.
  - assert (U : (current h / goal h * 100 < 100)%Q) by exact (not_le_gt _ _ L).
    eexists. split; [reflexivity |]. split; [exact P |].
    split; [lra |]. split.
    + split; [intro C; lra | intro G; apply Ge in G; lra].
    + intros E C. split; [| exact U].
      left. split; [exact E | lra].
Qed.

Lemma screenHabit_goal : (0 < goal screenHabit)%Q.
Proof. reflexivity. Defined.

Lemma screenHabit_current : (0 <= current screenHabit)%Q.
Proof. discriminate. Defined.

(** Screen time of 4.5 hours against a limit of 4: the goal card shows a
    full bar. *)
Lemma goal_card_bar_ignores_direction_witness :
  (0 < goal screenHabit)%Q /\ (0 <= current screenHabit)%Q /\
  exists q,
    goalCardProgress screenHabit = Num.Fin q /\ (0 <= q)%Q /\ (q <= 100)%Q /\
    ((q == 100)%Q <-> (goal screenHabit <= current screenHabit)%Q) /\
    (habit_id screenHabit = "screen" ->
     (current screenHabit < goal screenHabit)%Q ->
       Spec.achieved screenHabit /\ (q < 100)%Q).
Proof.
  split; [exact screenHabit_goal |]. split; [exact screenHabit_current |].
  exact (goal_card_bar_ignores_direction screenHabit screenHabit_goal
           screenHabit_current).
Defined.

(** The check on Tuesday after a check-in on Monday keeps the streak. *)
Lemma checkNewDay_keeps_streak_witness :
  lastCheckin mounted = Some monday /\
  getFullYear tuesday = getFullYear monday /\
  getMonth tuesday = getMonth monday /\
  getDate tuesday <> getDate monday /\
  getDate tuesday - getDate monday <= 1 /\
  checkNewDay tuesday mounted =
    Some (tt,
          mkState (streak mounted) (lastCheckin mounted) false
            (notification mounted) (reminders mounted) (habits mounted),
          []).
Proof.
  assert (D : getDate tuesday <> getDate monday) by discriminate.
  assert (G : getDate tuesday - getDate monday <= 1) by discriminate.
  repeat (split; [first [reflexivity | exact D | exact G] |]).
  exact (proj2 (proj2 (checkNewDay_keeps_streak mounted tuesday))
           monday eq_refl eq_refl eq_refl D G).
Defined.

Lemma mounted_habits : habits mounted <> [].
Proof. discriminate. Defined.

Lemma mounted_few : (List.length (habits mounted) < 200)%nat.
Proof. simpl. repeat constructor. Defined.

Lemma percentage_range_witness :
  habits mounted <> [] /\ (List.length (habits mounted) < 200)%nat /\
  exists p,
    percentage (habits mounted) = Some p /\ 0 <= p <= 100 /\
    ((List.length (habits mounted) < 200)%nat ->
       (p = 100 <-> forall h, In h (habits mounted) -> completed h = true) /\
       (p = 0 <-> forall h, In h (habits mounted) -> completed h = false)).
Proof.
  split; [exact mounted_habits |]. split; [exact mounted_few |].
  exact (proj2 percentage_range (habits mounted) mounted_habits).
Defined.

Lemma sleepHabit_data : data sleepHabit <> [].
Proof. discriminate. Defined.

Lemma weekly_statistics_bounds_witness :
  data sleepHabit <> [] /\
  exists lo hi avg,
    weeklyLow sleepHabit = Num.Fin lo /\ weeklyHigh sleepHabit = Num.Fin hi /\
    weeklyAvg sleepHabit = Num.Fin avg /\
    avg = Double.div (weeklyTotal sleepHabit)
            (inject_Z (JS.length (data sleepHabit))) /\
    (forall p, In p (data sleepHabit) ->
       (lo <= value p)%Q /\ (value p <= hi)%Q) /\
    In lo (List.map value (data sleepHabit)) /\
    In hi (List.map value (data sleepHabit)) /\
    ((forall p, In p (data sleepHabit) -> (0 <= value p)%Q) ->
       (0 <= weeklyTotal sleepHabit)%Q /\ (0 <= avg)%Q).
Proof.
  split; [exact sleepHabit_data |].
  exact (proj2 (weekly_statistics_bounds sleepHabit) sleepHabit_data).
Defined.

Lemma screenHabit_data : data screenHabit <> [].
Proof. discriminate. Defined.

Lemma progress_bar_range_witness :
  habit_id screenHabit = "screen" /\ data screenHabit <> [] /\
  exists q, getProgressPercentage weekly screenHabit = Num.Fin q /\
            (0 <= q)%Q /\ (q <= 100)%Q.
Proof.
  split; [reflexivity |]. split; [exact screenHabit_data |].
  exact (proj1 (proj2 (progress_bar_range screenHabit)) eq_refl
           screenHabit_data).
Defined.


Lemma zeroGoal_id :
  habit_id (withGoal 0 (mkHabit "coffee" "Coffee" "Coffee" "cups" "#d97706"
                          2 0 [])) <> "screen".
Proof. discriminate. Defined.

(** A coffee goal of 0 with no cup drunk: "100%" over a bar whose width is
    not a number. *)
Lemma achieved_habit_reads_full_witness :
  let h := withGoal 0 (mkHabit "coffee" "Coffee" "Coffee" "cups" "#d97706"
                         2 0 []) in
  habit_id h <> "screen" /\ (goal h == 0)%Q /\ (current h == 0)%Q /\
  getProgressText daily h = Num.Fin 100 /\
  getProgressPercentage daily h = Num.NaN.
Proof.
  intro h.
  split; [exact zeroGoal_id |]. split; [reflexivity |]. split; [reflexivity |].
  exact (proj2 (proj2 (achieved_habit_reads_full h)) zeroGoal_id
           (Qeq_refl 0) (Qeq_refl 0)).
Defined.
